(** * CLOS orchestrator: configuration, lifespan and request pipeline

    A shallow embedding of [clos/orchestrator/config.py] and
    [clos/orchestrator/app.py], and the properties of the bootstrap core
    that hold (or do not hold) of it.

    - [Py]        the Python string primitives the validators call;
    - [Pydantic]  the values a settings source hands over, the error
                  entries of a validation failure and the combinators
                  that gather them;
    - [Config]    [Settings], its validators and its constructor;
    - [Eff]       a trace-and-exception monad for the awaited calls;
    - [App]       [lifespan], [create_app], [global_exception_handler]. *)

From Stdlib Require Import ZArith String Ascii.
From stdpp Require Import base option list gmap strings.

Local Open Scope string_scope.
Local Open Scope list_scope.
Local Open Scope stdpp_scope.
#[local] Set Warnings "-register-all".

(** ** Python primitives *)

Module Py.

(** [v.startswith(p)] *)
Definition startswith (v p : string) : bool := String.prefix p v.

(** [v.startswith((p1, p2, ...))]: true when one of the prefixes matches. *)
Definition startswith_any (v : string) (ps : list string) : bool :=
  existsb (startswith v) ps.

(** [v.split(sep)] for a one-character separator: the pieces between the
    separators, in order; empty pieces are kept, so the result is never
    empty. *)
Fixpoint split (sep : ascii) (v : string) : list string :=
  match v with
  | EmptyString => [EmptyString]
  | String c rest =>
      if Ascii.eqb c sep then EmptyString :: split sep rest
      else match split sep rest with
           | piece :: pieces => String c piece :: pieces
           | [] => [String c EmptyString]
           end
  end.


(** The scheme of a URL: the text before the first ["://"], when there is
    one. *)
Fixpoint url_scheme (url : string) : option string :=
  match url with
  | EmptyString => None
  | String c rest =>
      if String.prefix "://" url then Some EmptyString
      else String c <$> url_scheme rest
  end.

End Py.

(** ** The settings framework

    What [BaseSettings] does around the declarations of [Settings]: it looks
    every field up in its sources, falls back on the declared default, runs
    the [pre] validators, coerces the value to the annotated type, runs the
    remaining validators, and gathers the failures of all fields into one
    validation error. *)

Module Pydantic.

(** A value as a settings source hands it to validation: an argument of the
    constructor, or what the environment source makes of a variable. For a
    field of a simple type ([str], [int], [bool]) that is the text of the
    variable. For a field of a complex type ([list[str]]) the environment
    source decodes the text as JSON first, and hands over the decoded
    object: a list for the text of a JSON array, a string for the text of
    a JSON string. A text that is not JSON ends the construction there,
    with a [SettingsError], before any field is validated. *)
Inductive value : Type :=
  | VNone
  | VBool (b : bool)
  | VInt (z : Z)
  | VStr (s : string)
  | VList (items : list value).

(** One entry of a validation error: the field it is about and what went
    wrong there. [ValueError] is what a validator of the class raised. *)
Inductive error_kind : Type :=
  | Missing
  | StringType
  | IntType
  | IntParsing
  | BoolType
  | BoolParsing
  | ListType
  | ValueError (msg : string).

Definition error : Type := string * error_kind.

(** The outcome of validating a field or a whole model. *)
Inductive validation (A : Type) : Type :=
  | Ok (a : A)
  | Err (errors : list error).
Arguments Ok {A} a.
Arguments Err {A} errors.

(** A validator either returns the (possibly changed) value or raises. *)
Inductive raises (A : Type) : Type :=
  | Return (a : A)
  | Raise (e : error_kind).
Arguments Return {A} a.
Arguments Raise {A} e.

(** Errors of all fields are collected, in field order. *)
Definition ap {A B} (f : validation (A → B)) (x : validation A) : validation B :=
  match f, x with
  | Ok g, Ok a => Ok (g a)
  | Ok _, Err e => Err e
  | Err e, Ok _ => Err e
  | Err e1, Err e2 => Err (e1 ++ e2)
  end.

Definition digit (c : ascii) : option Z :=
  let n := Z.of_nat (nat_of_ascii c) in
  if ((48 <=? n) && (n <=? 57))%Z then Some (n - 48)%Z else None.

Fixpoint digits (acc : Z) (s : string) : option Z :=
  match s with
  | EmptyString => Some acc
  | String c rest => d ← digit c; digits (10 * acc + d)%Z rest
  end.

(** Decimal text with an optional sign. *)
Definition int_of_str (s : string) : option Z :=
  match s with
  | EmptyString => None
  | String "-" (String _ _ as rest) => Z.opp <$> digits 0 rest
  | String "+" (String _ _ as rest) => digits 0 rest
  | _ => digits 0 s
  end.

Definition lower (c : ascii) : ascii :=
  let n := nat_of_ascii c in
  if (65 <=? n)%nat && (n <=? 90)%nat then ascii_of_nat (n + 32) else c.

Fixpoint lowercase (s : string) : string :=
  match s with
  | EmptyString => EmptyString
  | String c rest => String (lower c) (lowercase rest)
  end.

Definition bool_of_str (s : string) : option bool :=
  let t := lowercase s in
  if bool_decide (t ∈ ["1"; "true"; "t"; "yes"; "y"; "on"]) then Some true
  else if bool_decide (t ∈ ["0"; "false"; "f"; "no"; "n"; "off"]) then Some false
  else None.

(** Coercion to the annotated type [str]. *)
Definition as_str (loc : string) (v : value) : validation string :=
  match v with
  | VStr s => Ok s
  | _ => Err [(loc, StringType)]
  end.

(** Coercion to the annotated type [int]: an integer is taken as it is,
    text is parsed. No range is imposed. *)
Definition as_int (loc : string) (v : value) : validation Z :=
  match v with
  | VInt z => Ok z
  | VStr s => match int_of_str s with
              | Some z => Ok z
              | None => Err [(loc, IntParsing)]
              end
  | _ => Err [(loc, IntType)]
  end.

(** Coercion to the annotated type [bool]. *)
Definition as_bool (loc : string) (v : value) : validation bool :=
  match v with
  | VBool b => Ok b
  | VStr s => match bool_of_str s with
              | Some b => Ok b
              | None => Err [(loc, BoolParsing)]
              end
  | _ => Err [(loc, BoolType)]
  end.

Definition str_item (v : value) : option string :=
  match v with
  | VStr s => Some s
  | _ => None
  end.

(** Coercion to the annotated type [list[str]]: a list all of whose items
    are strings, kept in order. *)
Definition as_str_list (loc : string) (v : value) : validation (list string) :=
  match v with
  | VList items => match mapM str_item items with
                   | Some l => Ok l
                   | None => Err [(loc, StringType)]
                   end
  | _ => Err [(loc, ListType)]
  end.

(** What happens to a value that a source supplies for a field: the
    field's [pre=True] validator, the coercion to the annotated type, then
    the field's plain validator, whose exception becomes the field's error. *)
Definition validate {A} (name : string) (pre : value → value)
    (coerce : string → value → validation A)
    (post : A → raises A) (v : value) : validation A :=
  match coerce name (pre v) with
  | Ok a => match post a with
            | Return a' => Ok a'
            | Raise e => Err [(name, e)]
            end
  | Err errors => Err errors
  end.

(** A field of the model. [default = None] is [Field(...)]: the field is
    required. Validators do not run on the default. *)
Definition field {A} (env : gmap string value) (name : string)
    (default : option A) (pre : value → value)
    (coerce : string → value → validation A)
    (post : A → raises A) : validation A :=
  match env !! name with
  | None => match default with
            | Some d => Ok d
            | None => Err [(name, Missing)]
            end
  | Some v => validate name pre coerce post v
  end.

Definition no_pre (v : value) : value := v.
Definition no_post {A} (a : A) : raises A := Return a.

End Pydantic.

Infix "<*>" := Pydantic.ap (at level 61, left associativity).

(** ** config.py *)

Module Config.
Import Pydantic.

Record Settings : Type := {
  (* Application *)
  app_name : string;
  app_version : string;
  environment : string;
  secret_key : string;
  jwt_secret : string;
  jwt_expiration_minutes : Z;
  (* Server *)
  port : Z;
  workers : Z;
  (* Database *)
  database_url : string;
  database_pool_size : Z;
  database_max_overflow : Z;
  database_pool_timeout : Z;
  (* Redis *)
  redis_url : string;
  redis_pool_size : Z;
  (* Agent Configuration *)
  agent_timeout : Z;
  agent_max_retries : Z;
  agent_retry_delay : Z;
  (* Feature Flags *)
  enable_performance_monitoring : bool;
  enable_rate_limiting : bool;
  (* Rate Limiting *)
  rate_limit_requests : Z;
  rate_limit_period : Z;
  (* CORS *)
  cors_origins : list string;
  cors_allow_credentials : bool;
  cors_allow_methods : list string;
  cors_allow_headers : list string
}.

(** [@validator("cors_origins", pre=True)] *)
Definition parse_cors_origins (v : value) : value :=
  match v with
  | VStr s => VList (VStr <$> Py.split "," s)
  | _ => v
  end.

(** [@validator("database_url")] *)
Definition validate_database_url (v : string) : raises string :=
  if negb (Py.startswith_any v ["postgresql://"; "postgres://"])
  then Raise (ValueError "Database URL must be a PostgreSQL connection string")
  else Return v.

(** [@validator("redis_url")] *)
Definition validate_redis_url (v : string) : raises string :=
  if negb (Py.startswith v "redis://")
  then Raise (ValueError "Redis URL must start with redis://")
  else Return v.

(** [Settings()]: every declared field validated, in declaration order,
    from the values [env] that the sources hand over (keyed by field name).
    For the three [list[str]] fields these are the values after the
    environment source has decoded the variable, as described at [value];
    the decoding itself is the framework's and is not part of this
    function. Fields of the class that are plain optional strings or flags
    read by no function below are left out. *)
Definition Settings_init (env : gmap string value) : validation Settings :=
  Ok Build_Settings
  <*> field env "app_name" (Some "CLOS Orchestrator") no_pre as_str no_post
  <*> field env "app_version" (Some "1.0.0") no_pre as_str no_post
  <*> field env "environment" (Some "development") no_pre as_str no_post
  <*> field env "secret_key" None no_pre as_str no_post
  <*> field env "jwt_secret" None no_pre as_str no_post
  <*> field env "jwt_expiration_minutes" (Some 30%Z) no_pre as_int no_post
  <*> field env "port" (Some 8000%Z) no_pre as_int no_post
  <*> field env "workers" (Some 4%Z) no_pre as_int no_post
  <*> field env "database_url" None no_pre as_str validate_database_url
  <*> field env "database_pool_size" (Some 20%Z) no_pre as_int no_post
  <*> field env "database_max_overflow" (Some 40%Z) no_pre as_int no_post
  <*> field env "database_pool_timeout" (Some 30%Z) no_pre as_int no_post
  <*> field env "redis_url" None no_pre as_str validate_redis_url
  <*> field env "redis_pool_size" (Some 10%Z) no_pre as_int no_post
  <*> field env "agent_timeout" (Some 300%Z) no_pre as_int no_post
  <*> field env "agent_max_retries" (Some 3%Z) no_pre as_int no_post
  <*> field env "agent_retry_delay" (Some 5%Z) no_pre as_int no_post
  <*> field env "enable_performance_monitoring" (Some false) no_pre as_bool no_post
  <*> field env "enable_rate_limiting" (Some true) no_pre as_bool no_post
  <*> field env "rate_limit_requests" (Some 100%Z) no_pre as_int no_post
  <*> field env "rate_limit_period" (Some 60%Z) no_pre as_int no_post
  <*> field env "cors_origins"
        (Some ["http://localhost:3000"; "http://localhost:8000"])
        parse_cors_origins as_str_list no_post
  <*> field env "cors_allow_credentials" (Some true) no_pre as_bool no_post
  <*> field env "cors_allow_methods" (Some ["*"]) no_pre as_str_list no_post
  <*> field env "cors_allow_headers" (Some ["*"]) no_pre as_str_list no_post.

(** [@property is_production] *)
Definition is_production (self : Settings) : bool :=
  bool_decide (environment self = "production").

(** [@property is_development] *)
Definition is_development (self : Settings) : bool :=
  bool_decide (environment self = "development").

(** [@property is_testing] *)
Definition is_testing (self : Settings) : bool :=
  bool_decide (environment self = "testing").

End Config.

(** ** Effects

    The calls [app.py] makes into its collaborators (database, cache, agent
    pool, logging set-up, monitoring) are not pure: each one may raise. A
    call is recorded with the arguments [app.py] passes. A computation is
    run in a [world] that says which calls raise, and yields the trace of
    what it did together with its outcome. The logger is a sink: writing
    to it is recorded and never raises. *)

Module Eff.

(** An exception as the handler sees it: [type(exc).__name__], [str(exc)]. *)
Record exn : Type := { type_name : string; message : string }.

Inductive call : Type :=
  | setup_logging (settings : Config.Settings)
  | init_monitoring (settings : Config.Settings)
  | init_db
  | init_redis (url : string)
  | init_agent_pool
  | close_db
  | close_redis
  | shutdown_agent_pool.

Inductive event : Type :=
  | Log (level msg : string) (exc_info : option exn) (kv : list (string * string))
  | Called (c : call).

Inductive outcome (A : Type) : Type :=
  | Done (a : A)
  | Raised (e : exn).
Arguments Done {A} a.
Arguments Raised {A} e.

Definition world : Type := call → option exn.

Definition eff (A : Type) : Type := world → list event * outcome A.

#[global] Instance eff_ret : MRet eff := λ A a _, ([], Done a).

#[global] Instance eff_bind : MBind eff := λ A B k m w,
  match m w with
  | (t1, Done a) => let '(t2, r) := k a w in (t1 ++ t2, r)
  | (t1, Raised e) => (t1, Raised e)
  end.

(** Invoke a collaborator: the call is recorded, then it returns or raises
    as the world has it. *)
Definition invoke (c : call) : eff unit := λ w,
  ([Called c], match w c with Some e => Raised e | None => Done () end).

Definition logger (level msg : string) (exc_info : option exn)
    (kv : list (string * string)) : eff unit := λ _,
  ([Log level msg exc_info kv], Done ()).

Definition calls (t : list event) : list call :=
  omap (λ ev, match ev with Called c => Some c | Log _ _ _ _ => None end) t.

Definition trace {A} (r : list event * outcome A) : list event := r.1.
Definition result {A} (r : list event * outcome A) : outcome A := r.2.

End Eff.

(** ** app.py *)

Module App.
Import Eff Config.

(** *** The lifespan manager *)

(** The part of [lifespan] before [yield]. *)
Definition lifespan_startup (settings : Settings) : eff unit :=
  logger "info" "Starting CLOS Orchestrator" None
    [("environment", environment settings)];;
  invoke (setup_logging settings);;
  (if enable_performance_monitoring settings
   then invoke (init_monitoring settings) else mret ());;
  invoke init_db;;
  invoke (init_redis (redis_url settings));;
  invoke init_agent_pool;;
  logger "info" "CLOS Orchestrator started successfully" None [].

(** The part of [lifespan] after [yield]. *)
Definition lifespan_shutdown : eff unit :=
  logger "info" "Shutting down CLOS Orchestrator" None [];;
  invoke close_db;;
  invoke close_redis;;
  invoke shutdown_agent_pool;;
  logger "info" "CLOS Orchestrator shutdown complete" None [].

(** [async with lifespan(app): serving]. The generator has no [try]: an
    exception before [yield] leaves it at once, and one raised while
    [serving] is thrown in at [yield] and leaves it as well. *)
Definition lifespan (settings : Settings) (serving : eff unit) : eff unit :=
  lifespan_startup settings;;
  serving;;
  lifespan_shutdown.

(** The resources of the lifespan manager, in start order, with the call
    that starts and the call that stops each. *)
Inductive resource : Type := database | redis | agent_pool.

Definition start_order : list resource := [database; redis; agent_pool].

Definition start_of (settings : Settings) (r : resource) : call :=
  match r with
  | database => init_db
  | redis => init_redis (redis_url settings)
  | agent_pool => init_agent_pool
  end.

Definition stop_of (r : resource) : call :=
  match r with
  | database => close_db
  | redis => close_redis
  | agent_pool => shutdown_agent_pool
  end.

Definition started (c : call) : option resource :=
  match c with
  | init_db => Some database
  | init_redis _ => Some redis
  | init_agent_pool => Some agent_pool
  | _ => None
  end.

Definition stopped (c : call) : option resource :=
  match c with
  | close_db => Some database
  | close_redis => Some redis
  | shutdown_agent_pool => Some agent_pool
  | _ => None
  end.

(** The resources whose start, respectively stop, a trace invokes, in the
    order of the invocations. *)
Definition starts (t : list event) : list resource := omap started (calls t).
Definition stops (t : list event) : list resource := omap stopped (calls t).

(** *** The application *)

Inductive middleware : Type :=
  | CORSMiddleware (allow_origins : list string) (allow_credentials : bool)
      (allow_methods allow_headers : list string)
  | TrustedHostMiddleware (allowed_hosts : list string)
  | LoggingMiddleware
  | MetricsMiddleware
  | RateLimitMiddleware (requests_per_minute : Z).

Inductive router : Type := health | auth | agents | workflows | services.

Inductive route : Type :=
  | Mount (path : string)
  | IncludeRouter (r : router) (prefix : string) (tags : list string).

Record FastAPI : Type := {
  title : string;
  version : string;
  description : string;
  docs_url : option string;
  redoc_url : option string;
  openapi_url : option string;
  user_middleware : list middleware;
  routes : list route
}.

(** Modelled from the spec: [FastAPI.add_middleware] is the web framework's,
    not a function of this repository. Its rule is the one the
    middleware-order property cites: middleware registered later runs
    outermost, so a registration goes to the front of the stack. *)
Definition add_middleware (app : FastAPI) (m : middleware) : FastAPI :=
  {| title := title app; version := version app;
     description := description app; docs_url := docs_url app;
     redoc_url := redoc_url app; openapi_url := openapi_url app;
     user_middleware := m :: user_middleware app;
     routes := routes app |}.

(** [app.mount] and [app.include_router]: routes are tried in the order
    they were added. *)
Definition add_route (app : FastAPI) (r : route) : FastAPI :=
  {| title := title app; version := version app;
     description := description app; docs_url := docs_url app;
     redoc_url := redoc_url app; openapi_url := openapi_url app;
     user_middleware := user_middleware app;
     routes := routes app ++ [r] |}.

Definition create_app (settings : Settings) : FastAPI :=
  let app :=
    {| title := app_name settings;
       version := app_version settings;
       description := "Central orchestration platform for AI-powered applications";
       docs_url := if negb (is_production settings) then Some "/docs" else None;
       redoc_url := if negb (is_production settings) then Some "/redoc" else None;
       openapi_url :=
         if negb (is_production settings) then Some "/openapi.json" else None;
       user_middleware := [];
       routes := [] |} in
  (* Add CORS middleware *)
  let app := add_middleware app
    (CORSMiddleware (cors_origins settings) (cors_allow_credentials settings)
       (cors_allow_methods settings) (cors_allow_headers settings)) in
  (* Add trusted host middleware *)
  let app := add_middleware app
    (TrustedHostMiddleware
       (if is_development settings then ["*"]
        else ["*.candlefish.ai"; "localhost"])) in
  (* Add custom middleware *)
  let app := add_middleware app LoggingMiddleware in
  let app := add_middleware app MetricsMiddleware in
  let app :=
    if enable_rate_limiting settings
    then add_middleware app (RateLimitMiddleware (rate_limit_requests settings))
    else app in
  (* Mount Prometheus metrics endpoint *)
  let app := add_route app (Mount "/metrics") in
  (* Include routers *)
  let app := add_route app (IncludeRouter health "" ["health"]) in
  let app := add_route app (IncludeRouter auth "/api/v1/auth" ["authentication"]) in
  let app := add_route app (IncludeRouter agents "/api/v1/agents" ["agents"]) in
  let app := add_route app (IncludeRouter workflows "/api/v1/workflows" ["workflows"]) in
  let app := add_route app (IncludeRouter services "/api/v1/services" ["services"]) in
  app.

(** *** The request pipeline *)

Inductive stage : Type :=
  | HostValidation
  | CorsPolicy
  | RequestLogging
  | MetricsRecording
  | RateLimiting
  | RouterDispatch.

Definition stage_of (m : middleware) : stage :=
  match m with
  | CORSMiddleware _ _ _ _ => CorsPolicy
  | TrustedHostMiddleware _ => HostValidation
  | LoggingMiddleware => RequestLogging
  | MetricsMiddleware => MetricsRecording
  | RateLimitMiddleware _ => RateLimiting
  end.

(** The stages a request enters, in order: the middleware from the
    outermost inwards, each one either answering itself (short-circuit) or
    handing the request on, and the router after the innermost. *)
Fixpoint traverse (short_circuits : middleware → bool)
    (stack : list middleware) : list stage :=
  match stack with
  | [] => [RouterDispatch]
  | m :: inner =>
      stage_of m ::
        (if short_circuits m then [] else traverse short_circuits inner)
  end.

Definition request_path (app : FastAPI) (short_circuits : middleware → bool)
    : list stage :=
  traverse short_circuits (user_middleware app).

(** *** The global exception handler *)

Record Request : Type := { url_path : string; method : string }.

(** A JSON response: the status code and the body, an object whose members
    are kept in the order they were written. *)
Record JSONResponse : Type := {
  status_code : Z;
  content : list (string * string)
}.

Definition global_exception_handler (settings : Settings)
    (request : Request) (exc : exn) : eff JSONResponse :=
  logger "error" "Unhandled exception" (Some exc)
    [("path", url_path request); ("method", method request)];;
  if is_production settings
  then mret {| status_code := 500;
               content := [("detail", "Internal server error")] |}
  else mret {| status_code := 500;
               content := [("detail", message exc);
                           ("type", type_name exc)] |}.

End App.

(** ** Vocabulary of the properties *)

Import Pydantic Config Eff App.

(** Construction fails, and [e] is among the reported errors. *)
Definition fails_with {A} (e : error) (r : validation A) : Prop :=
  ∃ errors, r = Err errors ∧ e ∈ errors.

(** The fields declared with [Field(...)]. *)
Definition required_fields : list string :=
  ["secret_key"; "jwt_secret"; "database_url"; "redis_url"].

(** The fields annotated [int]. *)
Inductive int_field : Type :=
  | Jwt_expiration_minutes
  | Port
  | Workers
  | Database_pool_size
  | Database_max_overflow
  | Database_pool_timeout
  | Redis_pool_size
  | Agent_timeout
  | Agent_max_retries
  | Agent_retry_delay
  | Rate_limit_requests
  | Rate_limit_period.

Definition int_field_name (f : int_field) : string :=
  match f with
  | Jwt_expiration_minutes => "jwt_expiration_minutes"
  | Port => "port"
  | Workers => "workers"
  | Database_pool_size => "database_pool_size"
  | Database_max_overflow => "database_max_overflow"
  | Database_pool_timeout => "database_pool_timeout"
  | Redis_pool_size => "redis_pool_size"
  | Agent_timeout => "agent_timeout"
  | Agent_max_retries => "agent_max_retries"
  | Agent_retry_delay => "agent_retry_delay"
  | Rate_limit_requests => "rate_limit_requests"
  | Rate_limit_period => "rate_limit_period"
  end.

Definition int_field_get (f : int_field) : Settings → Z :=
  match f with
  | Jwt_expiration_minutes => jwt_expiration_minutes
  | Port => port
  | Workers => workers
  | Database_pool_size => database_pool_size
  | Database_max_overflow => database_max_overflow
  | Database_pool_timeout => database_pool_timeout
  | Redis_pool_size => redis_pool_size
  | Agent_timeout => agent_timeout
  | Agent_max_retries => agent_max_retries
  | Agent_retry_delay => agent_retry_delay
  | Rate_limit_requests => rate_limit_requests
  | Rate_limit_period => rate_limit_period
  end.

(** The position of a resource in the start order. *)
Definition position (r : resource) : nat :=
  match r with
  | database => 0
  | redis => 1
  | agent_pool => 2
  end.

(** Lookup in the body of a JSON response. *)
Definition member (key : string) (body : list (string * string)) : option string :=
  snd <$> List.find (λ kv, String.eqb key kv.1) body.

(** The response of the handler in production. *)
Definition generic_response : JSONResponse :=
  {| status_code := 500; content := [("detail", "Internal server error")] |}.

(** Concrete inputs. *)
Definition minimal_env : gmap string value :=
  <["secret_key" := VStr "k"]>
    (<["jwt_secret" := VStr "j"]>
       (<["database_url" := VStr "postgresql://clos@db/clos"]>
          (<["redis_url" := VStr "redis://cache:6379"]> ∅))).

Definition dev_settings : Settings :=
  {| app_name := "CLOS Orchestrator"; app_version := "1.0.0";
     environment := "development"; secret_key := "k"; jwt_secret := "j";
     jwt_expiration_minutes := 30; port := 8000; workers := 4;
     database_url := "postgresql://clos@db/clos";
     database_pool_size := 20; database_max_overflow := 40;
     database_pool_timeout := 30;
     redis_url := "redis://cache:6379"; redis_pool_size := 10;
     agent_timeout := 300; agent_max_retries := 3; agent_retry_delay := 5;
     enable_performance_monitoring := false; enable_rate_limiting := true;
     rate_limit_requests := 100; rate_limit_period := 60;
     cors_origins := ["http://localhost:3000"; "http://localhost:8000"];
     cors_allow_credentials := true;
     cors_allow_methods := ["*"]; cors_allow_headers := ["*"] |}.

Definition with_environment (name : string) (s : Settings) : Settings :=
  {| app_name := app_name s; app_version := app_version s;
     environment := name; secret_key := secret_key s;
     jwt_secret := jwt_secret s;
     jwt_expiration_minutes := jwt_expiration_minutes s;
     port := port s; workers := workers s;
     database_url := database_url s;
     database_pool_size := database_pool_size s;
     database_max_overflow := database_max_overflow s;
     database_pool_timeout := database_pool_timeout s;
     redis_url := redis_url s; redis_pool_size := redis_pool_size s;
     agent_timeout := agent_timeout s;
     agent_max_retries := agent_max_retries s;
     agent_retry_delay := agent_retry_delay s;
     enable_performance_monitoring := enable_performance_monitoring s;
     enable_rate_limiting := enable_rate_limiting s;
     rate_limit_requests := rate_limit_requests s;
     rate_limit_period := rate_limit_period s;
     cors_origins := cors_origins s;
     cors_allow_credentials := cors_allow_credentials s;
     cors_allow_methods := cors_allow_methods s;
     cors_allow_headers := cors_allow_headers s |}.

(** A world in which every call returns. *)
Definition all_up : world := λ _, None.

Definition connection_refused : exn :=
  {| type_name := "ConnectionError"; message := "Connection refused" |}.

(** A world in which the cache cannot be reached. *)
Definition redis_down : world := λ c,
  match c with
  | init_redis _ => Some connection_refused
  | _ => None
  end.

Definition key_error : exn := {| type_name := "KeyError"; message := "'agent_id'" |}.

Definition get_agents : Request := {| url_path := "/api/v1/agents"; method := "GET" |}.

(** The response of the handler outside production. *)
Definition verbose_response (exc : exn) : JSONResponse :=
  {| status_code := 500;
     content := [("detail", message exc); ("type", type_name exc)] |}.

Definition value_error : exn :=
  {| type_name := "ValueError"; message := "invalid literal for int()" |}.

(** The stage order of the design document: host validation outermost. *)
Definition documented_order : list stage :=
  [HostValidation; CorsPolicy; RequestLogging; MetricsRecording; RateLimiting;
   RouterDispatch].

(** No middleware answers by itself. *)
Definition passes_all : middleware → bool := λ _, false.

(** The rate limiter rejects the request; the other stages hand it on. *)
Definition over_limit : middleware → bool := λ m,
  match m with
  | RateLimitMiddleware _ => true
  | _ => false
  end.

(** ** config.py: the remaining declarations and the two getters *)

Module ConfigFull.
Import Pydantic Config.

(** Coercion to the annotated type [Optional[str]]. *)
Definition as_opt_str (loc : string) (v : value) : validation (option string) :=
  match v with
  | VNone => Ok None
  | VStr s => Ok (Some s)
  | _ => Err [(loc, StringType)]
  end.

(** The whole settings object: the fields of [Settings] above ([base]) and
    the declarations that were left out there. *)
Record FullSettings : Type := {
  base : Settings;
  debug : bool;
  jwt_algorithm : string;
  host : string;
  reload : bool;
  database_echo : bool;
  redis_decode_responses : bool;
  (* AWS *)
  aws_region : string;
  aws_account_id : option string;
  aws_access_key_id : option string;
  aws_secret_access_key : option string;
  aws_endpoint_url : option string;
  (* S3 *)
  s3_bucket_assets : string;
  s3_bucket_backups : string;
  (* AI Services *)
  anthropic_api_key : option string;
  openai_api_key : option string;
  (* Monitoring *)
  new_relic_license_key : option string;
  new_relic_app_name : string;
  datadog_api_key : option string;
  sentry_dsn : option string;
  enable_agent_logging : bool
}.

(** [Settings()] with all declarations. The errors of the fields of [base]
    are reported before those of the fields added here. *)
Definition FullSettings_init (env : gmap string value) : validation FullSettings :=
  Ok Build_FullSettings
  <*> Settings_init env
  <*> field env "debug" (Some false) no_pre as_bool no_post
  <*> field env "jwt_algorithm" (Some "HS256") no_pre as_str no_post
  <*> field env "host" (Some "0.0.0.0") no_pre as_str no_post
  <*> field env "reload" (Some false) no_pre as_bool no_post
  <*> field env "database_echo" (Some false) no_pre as_bool no_post
  <*> field env "redis_decode_responses" (Some true) no_pre as_bool no_post
  <*> field env "aws_region" (Some "us-east-1") no_pre as_str no_post
  <*> field env "aws_account_id" (Some None) no_pre as_opt_str no_post
  <*> field env "aws_access_key_id" (Some None) no_pre as_opt_str no_post
  <*> field env "aws_secret_access_key" (Some None) no_pre as_opt_str no_post
  <*> field env "aws_endpoint_url" (Some None) no_pre as_opt_str no_post
  <*> field env "s3_bucket_assets" (Some "candlefish-assets") no_pre as_str no_post
  <*> field env "s3_bucket_backups" (Some "candlefish-backups") no_pre as_str no_post
  <*> field env "anthropic_api_key" (Some None) no_pre as_opt_str no_post
  <*> field env "openai_api_key" (Some None) no_pre as_opt_str no_post
  <*> field env "new_relic_license_key" (Some None) no_pre as_opt_str no_post
  <*> field env "new_relic_app_name" (Some "CLOS Orchestrator") no_pre as_str no_post
  <*> field env "datadog_api_key" (Some None) no_pre as_opt_str no_post
  <*> field env "sentry_dsn" (Some None) no_pre as_opt_str no_post
  <*> field env "enable_agent_logging" (Some true) no_pre as_bool no_post.

(** Truth value of an [Optional[str]] in a condition: [None] and the empty
    string are false. *)
Definition truthy (o : option string) : bool :=
  match o with
  | Some (String _ _) => true
  | _ => false
  end.

(** An [Optional[str]] as a dictionary value. *)
Definition py_value (o : option string) : value :=
  match o with
  | Some s => VStr s
  | None => VNone
  end.

(** [get_aws_config] *)
Definition get_aws_config (self : FullSettings) : gmap string value :=
  let config : gmap string value := {["region_name" := VStr (aws_region self)]} in
  let config :=
    if truthy (aws_access_key_id self) && truthy (aws_secret_access_key self)
    then <["aws_secret_access_key" := py_value (aws_secret_access_key self)]>
           (<["aws_access_key_id" := py_value (aws_access_key_id self)]> config)
    else config in
  let config :=
    if truthy (aws_endpoint_url self)
    then <["endpoint_url" := py_value (aws_endpoint_url self)]> config
    else config in
  config.

(** [get_database_config] *)
Definition get_database_config (self : FullSettings) : gmap string value :=
  <["pool_size" := VInt (database_pool_size (base self))]>
    (<["max_overflow" := VInt (database_max_overflow (base self))]>
       (<["pool_timeout" := VInt (database_pool_timeout (base self))]>
          (<["echo" := VBool (database_echo self)]>
             (<["pool_pre_ping" := VBool true]>
                (<["pool_recycle" := VInt 3600]> ∅))))).

End ConfigFull.

Import ConfigFull.

(** ** Further vocabulary *)

(** The errors a validation reports; none when it succeeds. *)
Definition errors_of {A} (r : validation A) : list error :=
  match r with
  | Ok _ => []
  | Err errors => errors
  end.

(** Coercions and validators report type, parsing and value errors, never
    a missing field. *)
Definition coercion_keeps_kind {A} (coerce : string → value → validation A) : Prop :=
  ∀ loc v e, e ∈ errors_of (coerce loc v) → e.2 ≠ Missing.

Definition validator_keeps_kind {A} (post : A → raises A) : Prop :=
  ∀ a e, post a = Raise e → e ≠ Missing.

(** Serving that ends with an exception, without calling anything. *)
Definition crash (e : exn) : eff unit := λ _, ([], Raised e).

Definition runtime_error : exn :=
  {| type_name := "RuntimeError"; message := "event loop stopped" |}.

(** A world in which closing the database raises. *)
Definition db_close_fails : world := λ c,
  match c with
  | close_db => Some runtime_error
  | _ => None
  end.

(** A world in which the logging set-up raises. *)
Definition logging_fails : world := λ c,
  match c with
  | setup_logging _ => Some value_error
  | _ => None
  end.

(** A world in which only the monitoring set-up raises. *)
Definition monitoring_fails : world := λ c,
  match c with
  | init_monitoring _ => Some runtime_error
  | _ => None
  end.


(** The allowed hosts of the trusted-host middleware of a stack, one entry
    for each such middleware. *)
Definition trusted_hosts (stack : list middleware) : list (list string) :=
  omap (λ m, match m with
             | TrustedHostMiddleware hosts => Some hosts
             | _ => None
             end) stack.

(** The keys of a credential pair in the AWS configuration. *)
Definition access_key : string := "aws_access_key_id".
Definition secret_access_key : string := "aws_secret_access_key".

(** ** Python primitives: properties *)

Example split_origins : Py.split "," "a,b,,c" = ["a"; "b"; ""; "c"].
Proof. reflexivity. Qed.

Example split_trailing_comma : Py.split "," "a," = ["a"; ""].
Proof. reflexivity. Qed.

Example split_empty_string : Py.split "," "" = [""].
Proof. reflexivity. Qed.

Example scheme_of_postgres_url :
  Py.url_scheme "postgres://clos@db/clos" = Some "postgres".
Proof. reflexivity. Qed.

Example scheme_of_host_and_port : Py.url_scheme "localhost:5432" = None.
Proof. reflexivity. Qed.

Example int_of_negative_text : int_of_str "-30" = Some (-30)%Z.
Proof. reflexivity. Qed.

Example settings_of_minimal_env : Settings_init minimal_env = Ok dev_settings.
Proof. vm_compute. reflexivity. Qed.

Example settings_of_empty_env :
  Settings_init ∅ =
  Err [("secret_key", Missing); ("jwt_secret", Missing);
       ("database_url", Missing); ("redis_url", Missing)].
Proof. vm_compute. reflexivity. Qed.

Example calls_of_a_quiet_lifespan :
  calls (trace (lifespan dev_settings (mret ()) all_up)) =
  [setup_logging dev_settings; init_db; init_redis "redis://cache:6379";
   init_agent_pool;
   close_db; close_redis; shutdown_agent_pool].
Proof. reflexivity. Qed.

Section py_facts.
Variable sep : ascii.

Lemma split_nonempty (v : string) : Py.split sep v ≠ [].
Proof.
  destruct v as [|c rest]; simpl; [done|].
  destruct (Ascii.eqb c sep); [done|].
  by destruct (Py.split sep rest).
Qed.

Lemma split_cons (v : string) :
  ∃ piece pieces, Py.split sep v = piece :: pieces.
Proof.
  pose proof (split_nonempty v) as Hne.
  destruct (Py.split sep v) as [|piece pieces]; [done|eauto].
Qed.



End py_facts.

Lemma prefix_app (p v : string) :
  String.prefix p v = true → ∃ rest, v = p +:+ rest.
Proof.
  revert v. induction p as [|c p IH]; intros [|c' v] Hp; simpl in Hp.
  - by exists "".
  - by exists (String c' v).
  - done.
  - destruct (ascii_dec c c') as [->|]; [|done].
    destruct (IH _ Hp) as [rest ->]. by exists rest.
Qed.

Lemma database_scheme (url : string) :
  Py.startswith_any url ["postgresql://"; "postgres://"] = true →
  Py.url_scheme url = Some "postgresql" ∨ Py.url_scheme url = Some "postgres".
Proof.
  unfold Py.startswith_any, Py.startswith. simpl.
  rewrite orb_false_r.
  intros [Hp|Hp]%orb_true_iff; apply prefix_app in Hp as [rest ->];
    [left|right]; by destruct rest.
Qed.

(** ** Collected validation errors *)

Section validation_facts.
Context {A B : Type}.
Implicit Types (f : validation (A → B)) (x : validation A).

Lemma ap_fails_l e f x : fails_with e f → fails_with e (f <*> x).
Proof.
  intros (errors & -> & He). destruct x as [a|errors']; simpl.
  - by exists errors.
  - exists (errors ++ errors'). split; [done|]. apply elem_of_app. by left.
Qed.

Lemma ap_fails_r e f x : fails_with e x → fails_with e (f <*> x).
Proof.
  intros (errors & -> & He). destruct f as [g|errors']; simpl.
  - by exists errors.
  - exists (errors' ++ errors). split; [done|]. apply elem_of_app. by right.
Qed.

Lemma ap_Ok_inv f x b :
  f <*> x = Ok b → ∃ g a, f = Ok g ∧ x = Ok a ∧ b = g a.
Proof.
  destruct f as [g|?], x as [a|?]; simpl; intros Hb; simplify_eq.
  by exists g, a.
Qed.

End validation_facts.

Lemma fails_with_not_Ok {A} e (r : validation A) :
  fails_with e r → ∀ a, r ≠ Ok a.
Proof. by intros (errors & -> & _) a. Qed.

Section field_facts.
Context {A : Type}.
Variables (env : gmap string value) (name : string).
Variables (pre : value → value) (coerce : string → value → validation A).
Variables (post : A → raises A).

Lemma field_missing :
  env !! name = None →
  field env name None pre coerce post = Err [(name, Missing)].
Proof. unfold field. by intros ->. Qed.

Lemma field_insert k v default :
  field (<[k:=v]> env) name default pre coerce post =
  if bool_decide (k = name) then validate name pre coerce post v
  else field env name default pre coerce post.
Proof.
  unfold field. case_bool_decide as Hk.
  - subst k. by rewrite lookup_insert_eq.
  - by rewrite lookup_insert_ne.
Qed.

Lemma field_insert_eq v default :
  field (<[name:=v]> env) name default pre coerce post =
  validate name pre coerce post v.
Proof. rewrite field_insert. by rewrite bool_decide_true. Qed.

Lemma field_insert_ne k v default :
  k ≠ name →
  field (<[k:=v]> env) name default pre coerce post =
  field env name default pre coerce post.
Proof. intros Hk. rewrite field_insert. by rewrite bool_decide_false. Qed.

End field_facts.

(** A failing field makes the construction of [Settings] fail with that
    field's error among those reported. *)
Ltac field_fails H :=
  unfold Settings_init;
  repeat first [ apply ap_fails_r; exact H | apply ap_fails_l ].

Lemma bad_database_url_fails (env : gmap string value) (url : string) :
  env !! "database_url" = Some (VStr url) →
  Py.startswith_any url ["postgresql://"; "postgres://"] = false →
  fails_with
    ("database_url",
     ValueError "Database URL must be a PostgreSQL connection string")
    (Settings_init env).
Proof.
  intros Henv Hurl.
  assert (fails_with
    ("database_url",
     ValueError "Database URL must be a PostgreSQL connection string")
    (field env "database_url" None no_pre as_str validate_database_url)) as H.
  { unfold field, validate, validate_database_url, no_pre, as_str.
    rewrite Henv, Hurl. simpl. eexists. split; [done|]. apply list_elem_of_singleton.
    done. }
  field_fails H.
Qed.

Lemma bad_redis_url_fails (env : gmap string value) (url : string) :
  env !! "redis_url" = Some (VStr url) →
  Py.startswith url "redis://" = false →
  fails_with ("redis_url", ValueError "Redis URL must start with redis://")
    (Settings_init env).
Proof.
  intros Henv Hurl.
  assert (fails_with
    ("redis_url", ValueError "Redis URL must start with redis://")
    (field env "redis_url" None no_pre as_str validate_redis_url)) as H.
  { unfold field, validate, validate_redis_url, no_pre, as_str.
    rewrite Henv, Hurl. simpl. eexists. split; [done|]. apply list_elem_of_singleton.
    done. }
  field_fails H.
Qed.

(** ** Configuration: URL schemes *)

(** C5. When the store URL's scheme is neither [postgresql] nor [postgres],
    or the cache URL does not start with [redis://], [Settings()] fails: it
    reports the [ValueError] of the field's validator and returns no
    settings object at all. *)
Theorem C5_invalid_url_scheme_is_config_error
    (env : gmap string value) (url : string) :
  (env !! "database_url" = Some (VStr url) ∧
   Py.url_scheme url ≠ Some "postgresql" ∧
   Py.url_scheme url ≠ Some "postgres") ∨
  (env !! "redis_url" = Some (VStr url) ∧
   Py.startswith url "redis://" = false) →
  (∀ cfg, Settings_init env ≠ Ok cfg) ∧
  (fails_with
     ("database_url",
      ValueError "Database URL must be a PostgreSQL connection string")
     (Settings_init env) ∨
   fails_with ("redis_url", ValueError "Redis URL must start with redis://")
     (Settings_init env)).
Proof.
  intros [(Henv & Hql & Hq)|(Henv & Hurl)].
  - assert (Py.startswith_any url ["postgresql://"; "postgres://"] = false)
      as Hurl.
    { destruct (Py.startswith_any url _) eqn:Hs; [|done].
      by destruct (database_scheme _ Hs). }
    pose proof (bad_database_url_fails env url Henv Hurl) as Hf.
    split; [by eapply fails_with_not_Ok|by left].
  - pose proof (bad_redis_url_fails env url Henv Hurl) as Hf.
    split; [by eapply fails_with_not_Ok|by right].
Qed.

Lemma C5_witness :
  let env := <["database_url" := VStr "mysql://db/clos"]> minimal_env in
  (env !! "database_url" = Some (VStr "mysql://db/clos") ∧
   Py.url_scheme "mysql://db/clos" = Some "mysql") ∧
  (∀ cfg, Settings_init env ≠ Ok cfg) ∧
  (fails_with
     ("database_url",
      ValueError "Database URL must be a PostgreSQL connection string")
     (Settings_init env) ∨
   fails_with ("redis_url", ValueError "Redis URL must start with redis://")
     (Settings_init env)).
Proof.
  intros env. split; [split; reflexivity|].
  apply (C5_invalid_url_scheme_is_config_error env "mysql://db/clos").
  left. split_and!; [reflexivity|discriminate|discriminate].
Defined.

(** ** Configuration: required fields *)

(** C6. [secret_key], [jwt_secret], [database_url] and [redis_url] have no
    default: when a source supplies no value for one of them, [Settings()]
    fails, reports the field as missing, and returns no settings object. *)
Theorem C6_required_field_missing_is_config_error
    (env : gmap string value) (name : string) :
  name ∈ required_fields →
  env !! name = None →
  fails_with (name, Missing) (Settings_init env) ∧
  ∀ cfg, Settings_init env ≠ Ok cfg.
Proof.
  intros Hname Henv.
  assert (fails_with (name, Missing) (Settings_init env)) as Hf.
  { unfold required_fields in Hname.
    repeat (apply elem_of_cons in Hname as [->|Hname]);
      [..|by apply elem_of_nil in Hname].
    all: match goal with
         | |- fails_with (?n, _) _ =>
             assert (∀ pre post,
               fails_with (n, Missing) (field env n None pre as_str post)) as H
               by (intros; rewrite field_missing by done;
                   eexists; split; [done|by apply list_elem_of_singleton])
         end.
    all: unfold Settings_init;
      repeat first [ apply ap_fails_r; apply H | apply ap_fails_l ]. }
  split; [done|]. by eapply fails_with_not_Ok.
Qed.

Lemma C6_witness :
  let env := delete "jwt_secret" minimal_env in
  ("jwt_secret" ∈ required_fields ∧ env !! "jwt_secret" = None) ∧
  fails_with ("jwt_secret", Missing) (Settings_init env) ∧
  ∀ cfg, Settings_init env ≠ Ok cfg.
Proof.
  assert ("jwt_secret" ∈ required_fields) as Hin.
  { unfold required_fields. apply list_elem_of_In. simpl. tauto. }
  intros env. split; [split; [exact Hin|reflexivity]|].
  apply C6_required_field_missing_is_config_error; [exact Hin|reflexivity].
Defined.

(** ** Configuration: numeric fields *)

Ltac invert_settings H :=
  unfold Settings_init in H;
  repeat match type of H with
         | _ <*> _ = Ok _ =>
             let g := fresh "g" in
             let a := fresh "a" in
             let Hx := fresh "Hfield" in
             apply ap_Ok_inv in H as (g & a & H & Hx & ->)
         end;
  match type of H with Ok _ = Ok _ => injection H as <- end.

Lemma validate_int name z : validate name no_pre as_int no_post (VInt z) = Ok z.
Proof. reflexivity. Qed.

(** C7, counterexample. With [database_pool_size] (a pool size),
    [database_pool_timeout] (a timeout) and [agent_max_retries] (a retry
    count) negative, [Settings()] does not fail: it returns a settings
    object that carries the negative values. *)
Lemma C7_negative_numbers_are_accepted :
  let env := <["database_pool_size" := VInt (-5)]>
               (<["database_pool_timeout" := VStr "-30"]>
                  (<["agent_max_retries" := VInt (-1)]> minimal_env)) in
  ∃ cfg, Settings_init env = Ok cfg ∧
         (database_pool_size cfg < 0)%Z ∧
         (database_pool_timeout cfg < 0)%Z ∧
         (agent_max_retries cfg < 0)%Z.
Proof.
  eexists. split; [vm_compute; reflexivity|]. simpl. lia.
Qed.

(** C7, amended. The numeric fields are validated as integers and nothing
    more: on every input on which [Settings()] succeeds, giving a numeric
    field (a pool size, a timeout, a retry count or any other [int] field)
    any integer value, negative ones included, [Settings()] still succeeds
    and the settings object holds that very integer in the field. *)
Theorem C7_numeric_fields_take_any_integer
    (env : gmap string value) (cfg : Settings) (f : int_field) (z : Z) :
  Settings_init env = Ok cfg →
  ∃ cfg', Settings_init (<[int_field_name f := VInt z]> env) = Ok cfg' ∧
          int_field_get f cfg' = z.
Proof.
  intros H. invert_settings H.
  destruct f; unfold Settings_init; simpl int_field_name;
    rewrite field_insert_eq, !field_insert_ne by discriminate;
    rewrite validate_int;
    repeat match goal with Hf : field _ _ _ _ _ _ = Ok _ |- _ =>
             rewrite Hf; clear Hf end;
    (eexists; split; reflexivity).
Qed.

Lemma C7_witness :
  Settings_init minimal_env = Ok dev_settings ∧
  ∃ cfg', Settings_init (<["redis_pool_size" := VInt (-10)]> minimal_env)
            = Ok cfg' ∧
          redis_pool_size cfg' = (-10)%Z.
Proof.
  assert (Settings_init minimal_env = Ok dev_settings) as H
    by (vm_compute; reflexivity).
  split; [exact H|].
  exact (C7_numeric_fields_take_any_integer
           minimal_env dev_settings Redis_pool_size (-10) H).
Defined.

(** ** Configuration: allowed origins *)



(** C10. For the empty string the parser returns the one-element list
    holding the empty string, and for no string does it return the empty
    list: there is always a first piece. *)
Theorem C10_parsed_origins_never_empty :
  parse_cors_origins (VStr "") = VList [VStr ""] ∧
  (∀ s, parse_cors_origins (VStr s) ≠ VList []) ∧
  (∀ s, ∃ piece pieces,
     parse_cors_origins (VStr s) = VList (VStr piece :: (VStr <$> pieces))).
Proof.
  split; [reflexivity|]. split.
  - intros s. simpl. intros Hs. injection Hs as Hs.
    apply fmap_nil_inv in Hs. by apply split_nonempty in Hs.
  - intros s. simpl. destruct (split_cons ","%char s) as (piece & pieces & ->).
    by exists piece, pieces.
Qed.

(** ** The global exception handler and the environment *)

Lemma is_production_spec (settings : Settings) :
  is_production settings = true ↔ environment settings = "production".
Proof. unfold is_production. apply bool_decide_eq_true. Qed.

Lemma handler_logs_and_returns settings request exc w :
  global_exception_handler settings request exc w =
  ([Log "error" "Unhandled exception" (Some exc)
      [("path", url_path request); ("method", method request)]],
   Done (if is_production settings then generic_response
         else verbose_response exc)).
Proof.
  unfold global_exception_handler. by destruct (is_production settings).
Qed.

(** The environment name is stored as given: no trimming, no change of
    case. *)
Lemma environment_verbatim
    (env : gmap string value) (name : string) (cfg : Settings) :
  env !! "environment" = Some (VStr name) →
  Settings_init env = Ok cfg →
  environment cfg = name.
Proof.
  intros Henv H. invert_settings H. simpl.
  match goal with
  | Hf : field _ "environment" _ _ _ _ = Ok _ |- _ =>
      unfold field in Hf; rewrite Henv in Hf; by injection Hf
  end.
Qed.

(** C3. In production the handler answers every exception with status 500
    and the body [{"detail": "Internal server error"}]: the response is the
    same whatever the exception, the request and the state of the
    collaborators, so it carries nothing of the exception's message or type
    name. Outside production the response has status 500 and carries the
    exception's message under ["detail"] and its type name under ["type"]. *)
Theorem C3_handler_response_by_environment
    (settings : Settings) (request request' : Request) (exc exc' : exn)
    (w w' : world) :
  let response := result (global_exception_handler settings request exc w) in
  if is_production settings then
    response = Done generic_response ∧
    status_code generic_response = 500%Z ∧
    content generic_response = [("detail", "Internal server error")] ∧
    result (global_exception_handler settings request' exc' w') = response
  else
    ∃ r, response = Done r ∧
         status_code r = 500%Z ∧
         member "detail" (content r) = Some (message exc) ∧
         member "type" (content r) = Some (type_name exc).
Proof.
  simpl. rewrite !handler_logs_and_returns. unfold result. simpl.
  destruct (is_production settings).
  - done.
  - exists (verbose_response exc). done.
Qed.

(** C9. Production is recognised by equality with the string
    ["production"] and nothing else: for every other environment value the
    handler returns the verbose response, with the exception's message and
    type name, and the [docs], [redoc] and [openapi] endpoints are on. *)
Theorem C9_only_exact_production_is_production
    (settings : Settings) (request : Request) (exc : exn) (w : world) :
  environment settings ≠ "production" →
  is_production settings = false ∧
  result (global_exception_handler settings request exc w)
    = Done {| status_code := 500;
              content := [("detail", message exc); ("type", type_name exc)] |} ∧
  docs_url (create_app settings) = Some "/docs" ∧
  redoc_url (create_app settings) = Some "/redoc" ∧
  openapi_url (create_app settings) = Some "/openapi.json".
Proof.
  intros Henv.
  assert (is_production settings = false) as Hp.
  { destruct (is_production settings) eqn:Hp; [|done].
    by apply is_production_spec in Hp. }
  split; [done|]. rewrite handler_logs_and_returns, Hp.
  split; [done|].
  unfold create_app. rewrite Hp.
  by destruct (enable_rate_limiting settings).
Qed.

Lemma C9_witness :
  let settings := with_environment "Production" dev_settings in
  environment settings ≠ "production" ∧
  result (global_exception_handler settings get_agents key_error all_up)
    = Done {| status_code := 500;
              content := [("detail", "'agent_id'"); ("type", "KeyError")] |} ∧
  docs_url (create_app settings) = Some "/docs".
Proof.
  intros settings.
  assert (environment settings ≠ "production") as Henv by discriminate.
  split; [exact Henv|].
  pose proof (C9_only_exact_production_is_production
                settings get_agents key_error all_up Henv) as (_ & Hr & Hd & _).
  split; [exact Hr|exact Hd].
Defined.

(** ** The request pipeline *)

Lemma traverse_passes_all (stack : list middleware) :
  traverse passes_all stack = (stage_of <$> stack) ++ [RouterDispatch].
Proof. induction stack as [|m stack IH]; [done|]. simpl. by rewrite IH. Qed.

Lemma traverse_prefix short (stack : list middleware) :
  traverse short stack `prefix_of` (stage_of <$> stack) ++ [RouterDispatch].
Proof.
  induction stack as [|m stack IH]; [done|]. simpl.
  destruct (short m).
  - apply prefix_cons, prefix_nil.
  - by apply prefix_cons.
Qed.

(** The middleware stack that [create_app] leaves, outermost first. *)
Lemma create_app_user_middleware (settings : Settings) :
  user_middleware (create_app settings) =
  (if enable_rate_limiting settings
   then [RateLimitMiddleware (rate_limit_requests settings)] else [])
  ++ [MetricsMiddleware; LoggingMiddleware;
      TrustedHostMiddleware
        (if is_development settings then ["*"]
         else ["*.candlefish.ai"; "localhost"]);
      CORSMiddleware (cors_origins settings) (cors_allow_credentials settings)
        (cors_allow_methods settings) (cors_allow_headers settings)].
Proof.
  unfold create_app. destruct (enable_rate_limiting settings); reflexivity.
Qed.

(** C4, counterexample. With rate limiting on and no stage answering by
    itself, a request enters rate limiting first and host validation only
    fourth; a request that the rate limiter rejects never reaches host
    validation. The registrations read in their own order (CORS before
    trusted host) do not give the documented order either. *)
Lemma C4_rate_limiting_is_outermost :
  enable_rate_limiting dev_settings = true ∧
  request_path (create_app dev_settings) passes_all
  = [RateLimiting; MetricsRecording; RequestLogging; HostValidation; CorsPolicy;
     RouterDispatch] ∧
  request_path (create_app dev_settings) passes_all ≠ documented_order ∧
  request_path (create_app dev_settings) over_limit = [RateLimiting] ∧
  reverse (stage_of <$> user_middleware (create_app dev_settings))
    ++ [RouterDispatch] ≠ documented_order.
Proof.
  split_and!; [reflexivity|reflexivity|discriminate|reflexivity|discriminate].
Qed.

(** C4, amended. Every request traverses the stages in the fixed order:
    rate limiting first (when it is enabled; the stage is absent
    otherwise), then metrics recording, then request logging, then host
    validation, then CORS policy, and only then router dispatch; a stage
    that answers by itself ends the traversal there. The order is that of
    the registrations in [create_app] (CORS, trusted host, logging,
    metrics, rate limit), the later registered the further out. *)
Theorem C4_middleware_order (settings : Settings) :
  let app := create_app settings in
  let stack := stage_of <$> user_middleware app in
  stack = (if enable_rate_limiting settings then [RateLimiting] else [])
          ++ [MetricsRecording; RequestLogging; HostValidation; CorsPolicy] ∧
  reverse stack = [CorsPolicy; HostValidation; RequestLogging; MetricsRecording]
                  ++ (if enable_rate_limiting settings then [RateLimiting] else []) ∧
  request_path app passes_all = stack ++ [RouterDispatch] ∧
  ∀ short_circuits,
    request_path app short_circuits `prefix_of` stack ++ [RouterDispatch].
Proof.
  intros app stack. unfold stack, request_path, app.
  rewrite create_app_user_middleware.
  split_and!.
  - by destruct (enable_rate_limiting settings).
  - by destruct (enable_rate_limiting settings).
  - apply traverse_passes_all.
  - intros short. apply traverse_prefix.
Qed.

(** ** The lifespan manager *)

Lemma bind_run {A B} (m : eff A) (k : A → eff B) (w : world) :
  (m ≫= k) w =
  match m w with
  | (t1, Done a) => (t1 ++ (k a w).1, (k a w).2)
  | (t1, Raised e) => (t1, Raised e)
  end.
Proof.
  unfold mbind, eff_bind. destruct (m w) as [t1 [a|e]]; [|done].
  by destruct (k a w).
Qed.

Lemma invoke_run (c : call) (w : world) :
  invoke c w = ([Called c], match w c with Some e => Raised e | None => Done () end).
Proof. reflexivity. Qed.

(** The three phases of a lifespan: an exception in one phase ends the
    run there, with nothing of the later phases in the trace. *)
Lemma lifespan_phases (settings : Settings) (serving : eff unit) (w : world) :
  lifespan settings serving w =
  match lifespan_startup settings w with
  | (t1, Done _) =>
      match serving w with
      | (t2, Done _) =>
          (t1 ++ t2 ++ (lifespan_shutdown w).1, (lifespan_shutdown w).2)
      | (t2, Raised e) => (t1 ++ t2, Raised e)
      end
  | (t1, Raised e) => (t1, Raised e)
  end.
Proof.
  unfold lifespan. rewrite bind_run.
  destruct (lifespan_startup settings w) as [t1 [[]|e]]; [|done].
  rewrite bind_run.
  by destruct (serving w) as [t2 [[]|e]].
Qed.

Lemma starts_app t1 t2 : starts (t1 ++ t2) = starts t1 ++ starts t2.
Proof. unfold starts, calls. by rewrite !omap_app. Qed.

Lemma stops_app t1 t2 : stops (t1 ++ t2) = stops t1 ++ stops t2.
Proof. unfold stops, calls. by rewrite !omap_app. Qed.

Ltac run_eff :=
  unfold lifespan_startup, lifespan_shutdown, trace, result, starts, stops, calls;
  unfold mbind, eff_bind, invoke, logger, mret, eff_ret.

(** The trace of a startup, whatever the world: nothing is ever stopped,
    and the resources started are the first ones of the start order. *)
Lemma startup_run (settings : Settings) (w : world) :
  stops (trace (lifespan_startup settings w)) = [] ∧
  ∃ n, starts (trace (lifespan_startup settings w)) = take n start_order.
Proof.
  run_eff.
  destruct (enable_performance_monitoring settings);
    destruct (w (setup_logging settings)), (w (init_monitoring settings)),
      (w init_db),
      (w (init_redis (redis_url settings))), (w init_agent_pool); simpl;
    (split; [reflexivity|]);
    first [ by exists 0 | by exists 1 | by exists 2 | by exists 3 ].
Qed.

(** A startup that completes has started every resource, in start order. *)
Lemma startup_done (settings : Settings) (w : world) :
  result (lifespan_startup settings w) = Done () →
  starts (trace (lifespan_startup settings w)) = start_order.
Proof.
  run_eff.
  destruct (enable_performance_monitoring settings);
    destruct (w (setup_logging settings)), (w (init_monitoring settings)),
      (w init_db),
      (w (init_redis (redis_url settings))), (w init_agent_pool); simpl; done.
Qed.

(** The stops a shutdown invokes are the first ones of the start order:
    all of them when no stop raises, and otherwise those up to the first
    one that raises. *)
Lemma shutdown_run (w : world) :
  ∃ n, stops (trace (lifespan_shutdown w)) = take n start_order.
Proof.
  run_eff.
  destruct (w close_db), (w close_redis), (w shutdown_agent_pool); simpl;
    first [ by exists 1 | by exists 2 | by exists 3 ].
Qed.

Lemma shutdown_done (w : world) :
  Forall (λ r, w (stop_of r) = None) start_order →
  stops (trace (lifespan_shutdown w)) = start_order ∧
  result (lifespan_shutdown w) = Done ().
Proof.
  intros Hw. unfold start_order in Hw.
  apply Forall_cons in Hw as [Hdb Hw].
  apply Forall_cons in Hw as [Hredis Hw].
  apply Forall_cons in Hw as [Hpool _].
  simpl in Hdb, Hredis, Hpool.
  run_eff. by rewrite Hdb, Hredis, Hpool.
Qed.

(** C1, counterexample. All three resources start, serving ends normally,
    every stop returns: the stops are invoked database first and agent
    pool last, which is the start order and not its reverse. *)
Lemma C1_stops_follow_start_order :
  let run := lifespan dev_settings (mret ()) all_up in
  result run = Done () ∧
  starts (trace run) = [database; redis; agent_pool] ∧
  stops (trace run) = [database; redis; agent_pool] ∧
  stops (trace run) ≠ reverse (starts (trace run)).
Proof. split_and!; [reflexivity|reflexivity|reflexivity|discriminate]. Qed.

(** C1, amended. When all resources have started and every stop returns,
    the shutdown phase invokes each resource's stop exactly once, in start
    order: database first, then redis, then agent pool. *)
Theorem C1_shutdown_stops_each_once_in_start_order
    (settings : Settings) (serving : eff unit) (w : world) :
  result (lifespan_startup settings w) = Done () →
  result (serving w) = Done () →
  Forall (λ r, w (stop_of r) = None) start_order →
  trace (lifespan settings serving w)
  = trace (lifespan_startup settings w) ++ trace (serving w)
    ++ trace (lifespan_shutdown w) ∧
  result (lifespan settings serving w) = Done () ∧
  starts (trace (lifespan_startup settings w)) = [database; redis; agent_pool] ∧
  stops (trace (lifespan_startup settings w)) = [] ∧
  stops (trace (lifespan_shutdown w)) = [database; redis; agent_pool].
Proof.
  intros Hup Hserving Hstops.
  pose proof (startup_done settings w Hup) as Hstarts.
  pose proof (startup_run settings w) as [Hnone _].
  pose proof (shutdown_done w Hstops) as [Hdown Hres].
  rewrite lifespan_phases.
  unfold trace, result in *.
  destruct (lifespan_startup settings w) as [t1 [[]|e]]; [|done].
  destruct (serving w) as [t2 [[]|e]]; [|done].
  simpl in *. by rewrite Hres.
Qed.

Lemma C1_witness :
  (result (lifespan_startup dev_settings all_up) = Done () ∧
   result ((mret () : eff unit) all_up) = Done () ∧
   Forall (λ r, all_up (stop_of r) = None) start_order) ∧
  stops (trace (lifespan_shutdown all_up)) = [database; redis; agent_pool].
Proof.
  assert (Forall (λ r, all_up (stop_of r) = None) start_order) as Hstops
    by (repeat constructor).
  split; [split_and!; [reflexivity|reflexivity|exact Hstops]|].
  exact (proj2 (proj2 (proj2 (proj2
    (C1_shutdown_stops_each_once_in_start_order
       dev_settings (mret ()) all_up eq_refl eq_refl Hstops))))).
Defined.

(** C2, counterexample. The database starts and the cache does not: the
    error leaves the lifespan manager with the database never closed. *)
Lemma C2_database_left_open_when_redis_fails :
  let run := lifespan dev_settings (mret ()) redis_down in
  result run = Raised connection_refused ∧
  starts (trace run) = [database; redis] ∧
  stops (trace run) = [] ∧
  close_db ∉ calls (trace run).
Proof.
  split_and!; [reflexivity..|].
  vm_compute. intros Hin. apply list_elem_of_In in Hin. simpl in Hin.
  intuition discriminate.
Qed.

(** C2, amended. When the start of a resource fails (everything before it
    having gone well), the error propagates at once: no later resource is
    started and the application is never served, and the resources that
    were started earlier are not stopped. In the code: when [init_redis]
    fails after [init_db] succeeded, the agent pool is never initialised
    and the database is not closed. *)
Theorem C2_start_failure_propagates_without_rollback
    (settings : Settings) (serving : eff unit) (w : world)
    (r : resource) (e : exn) :
  w (setup_logging settings) = None →
  (enable_performance_monitoring settings = true →
   w (init_monitoring settings) = None) →
  Forall (λ r', w (start_of settings r') = None) (take (position r) start_order) →
  w (start_of settings r) = Some e →
  result (lifespan settings serving w) = Raised e ∧
  trace (lifespan settings serving w) = trace (lifespan_startup settings w) ∧
  starts (trace (lifespan settings serving w)) = take (S (position r)) start_order ∧
  stops (trace (lifespan settings serving w)) = [].
Proof.
  intros Hlog Hmon Hbefore Hr.
  rewrite lifespan_phases.
  assert (lifespan_startup settings w
          = (trace (lifespan_startup settings w), Raised e) ∧
          starts (trace (lifespan_startup settings w))
          = take (S (position r)) start_order) as [Hrun Hstarts].
  { run_eff. rewrite Hlog.
    destruct (enable_performance_monitoring settings);
      [rewrite (Hmon eq_refl)|];
      destruct r; simpl in Hbefore, Hr;
      repeat match goal with
             | H : Forall _ (_ :: _) |- _ => apply Forall_cons in H as [? H]
             end;
      simpl in *;
      repeat match goal with H : w _ = _ |- _ => rewrite H; clear H end;
      done. }
  pose proof (startup_run settings w) as [Hnone _].
  rewrite Hrun. unfold result, trace at 1 2 3. simpl. done.
Qed.

Lemma C2_witness :
  (redis_down (setup_logging dev_settings) = None ∧
   redis_down (start_of dev_settings database) = None ∧
   redis_down (start_of dev_settings redis) = Some connection_refused) ∧
  result (lifespan dev_settings (mret ()) redis_down) = Raised connection_refused ∧
  starts (trace (lifespan dev_settings (mret ()) redis_down)) = [database; redis] ∧
  stops (trace (lifespan dev_settings (mret ()) redis_down)) = [].
Proof.
  split; [split_and!; reflexivity|].
  assert (Forall (λ r', redis_down (start_of dev_settings r') = None)
            (take (position redis) start_order)) as Hbefore
    by (repeat constructor).
  pose proof (C2_start_failure_propagates_without_rollback
                dev_settings (mret ()) redis_down redis connection_refused
                eq_refl (λ _, eq_refl) Hbefore eq_refl)
    as (Hres & _ & Hstarts & Hstops).
  split_and!; [exact Hres|exact Hstarts|exact Hstops].
Defined.

(** ** Further properties of the lifespan manager *)

Lemma omap_prefix {A B} (f : A → option B) (l1 l2 : list A) :
  l1 `prefix_of` l2 → omap f l1 `prefix_of` omap f l2.
Proof. intros [rest ->]. rewrite omap_app. by apply prefix_app_r. Qed.

Lemma prefix_of_take {A} (l1 l : list A) (n : nat) :
  l1 `prefix_of` take n l → l1 = take (List.length l1) l.
Proof.
  intros [rest Hrest].
  assert (List.length l1 ≤ n)%nat as Hlen.
  { apply (f_equal List.length) in Hrest.
    rewrite length_app, length_take in Hrest. lia. }
  apply (f_equal (take (List.length l1))) in Hrest.
  rewrite take_take, take_app_length in Hrest.
  by rewrite Nat.min_l in Hrest.
Qed.

(** X1. At every moment of a startup, in every world, the resources started
    so far are the first ones of the start order (no resource is started
    before one it follows), and nothing has been stopped. *)
Theorem X1_started_resources_form_a_prefix
    (settings : Settings) (w : world) (k : nat) :
  let so_far := take k (trace (lifespan_startup settings w)) in
  stops so_far = [] ∧ ∃ n, starts so_far = take n start_order.
Proof.
  intros so_far.
  destruct (startup_run settings w) as [Hstops [n Hstarts]].
  assert (so_far `prefix_of` trace (lifespan_startup settings w)) as Hpre
    by apply prefix_take.
  split.
  - assert (stops so_far `prefix_of` stops (trace (lifespan_startup settings w)))
      as Hp by (unfold stops, calls; by do 2 apply omap_prefix).
    rewrite Hstops in Hp. by apply prefix_nil_inv in Hp.
  - assert (starts so_far `prefix_of` starts (trace (lifespan_startup settings w)))
      as Hp by (unfold starts, calls; by do 2 apply omap_prefix).
    rewrite Hstarts in Hp. eexists. by eapply prefix_of_take.
Qed.

(** X2. When serving ends with an exception, the lifespan manager ends with
    that exception and its shutdown part does not run: the only stops in
    the trace are those serving made itself, so the database, the cache
    and the agent pool stay open. *)
Theorem X2_serving_failure_skips_shutdown
    (settings : Settings) (serving : eff unit) (w : world) (e : exn) :
  result (lifespan_startup settings w) = Done () →
  result (serving w) = Raised e →
  result (lifespan settings serving w) = Raised e ∧
  trace (lifespan settings serving w)
  = trace (lifespan_startup settings w) ++ trace (serving w) ∧
  stops (trace (lifespan settings serving w)) = stops (trace (serving w)).
Proof.
  intros Hup Hserving.
  pose proof (startup_run settings w) as [Hnone _].
  rewrite lifespan_phases. unfold result, trace in *.
  destruct (lifespan_startup settings w) as [t1 [[]|e1]]; [|done].
  destruct (serving w) as [t2 [[]|e2]]; [done|].
  simpl in *. simplify_eq. split_and!; [done..|].
  by rewrite stops_app, Hnone.
Qed.

Lemma X2_witness :
  (result (lifespan_startup dev_settings all_up) = Done () ∧
   result (crash runtime_error all_up) = Raised runtime_error) ∧
  result (lifespan dev_settings (crash runtime_error) all_up)
  = Raised runtime_error ∧
  stops (trace (lifespan dev_settings (crash runtime_error) all_up)) = [].
Proof.
  split; [split; reflexivity|].
  pose proof (X2_serving_failure_skips_shutdown
                dev_settings (crash runtime_error) all_up runtime_error
                eq_refl eq_refl) as (Hres & _ & Hstops).
  split; [exact Hres|exact Hstops].
Defined.

(** X3. A stop that raises ends the shutdown: the exception leaves the
    lifespan manager, the resources before the failing one have been
    stopped, and the resources after it are never stopped. *)
Theorem X3_failing_stop_aborts_shutdown (w : world) (r : resource) (e : exn) :
  Forall (λ r', w (stop_of r') = None) (take (position r) start_order) →
  w (stop_of r) = Some e →
  result (lifespan_shutdown w) = Raised e ∧
  stops (trace (lifespan_shutdown w)) = take (S (position r)) start_order ∧
  Forall (λ r', stop_of r' ∉ calls (trace (lifespan_shutdown w)))
    (drop (S (position r)) start_order).
Proof.
  intros Hbefore Hr.
  destruct r; simpl in Hbefore, Hr;
    repeat match goal with
           | H : Forall _ (_ :: _) |- _ => apply Forall_cons in H as [? H]
           end;
    simpl in *; run_eff;
    repeat match goal with H : w _ = _ |- _ => rewrite H; clear H end;
    simpl; (split_and!; [done..|]);
    repeat constructor; simpl;
    intros Hin; apply list_elem_of_In in Hin; simpl in Hin;
    intuition discriminate.
Qed.

Lemma X3_witness :
  (Forall (λ r', db_close_fails (stop_of r') = None)
     (take (position database) start_order) ∧
   db_close_fails (stop_of database) = Some runtime_error) ∧
  result (lifespan_shutdown db_close_fails) = Raised runtime_error ∧
  stops (trace (lifespan_shutdown db_close_fails)) = [database].
Proof.
  assert (Forall (λ r', db_close_fails (stop_of r') = None)
            (take (position database) start_order)) as Hbefore
    by constructor.
  split; [split; [exact Hbefore|reflexivity]|].
  pose proof (X3_failing_stop_aborts_shutdown
                db_close_fails database runtime_error Hbefore eq_refl)
    as (Hres & Hstops & _).
  split; [exact Hres|exact Hstops].
Defined.

(** X4. When the logging set-up raises, or the monitoring set-up raises
    while performance monitoring is enabled, the lifespan manager ends
    with that exception before any resource is started. *)
Theorem X4_failure_before_the_database_starts_nothing
    (settings : Settings) (serving : eff unit) (w : world) (e : exn) :
  w (setup_logging settings) = Some e ∨
  (w (setup_logging settings) = None ∧
   enable_performance_monitoring settings = true ∧
   w (init_monitoring settings) = Some e) →
  result (lifespan settings serving w) = Raised e ∧
  starts (trace (lifespan settings serving w)) = [] ∧
  stops (trace (lifespan settings serving w)) = [].
Proof.
  intros Hfail. rewrite lifespan_phases.
  assert (lifespan_startup settings w
          = (trace (lifespan_startup settings w), Raised e) ∧
          starts (trace (lifespan_startup settings w)) = []) as [Hrun Hstarts].
  { run_eff. destruct Hfail as [Hlog|(Hlog & Hflag & Hmon)].
    - by rewrite Hlog.
    - by rewrite Hlog, Hflag, Hmon. }
  pose proof (startup_run settings w) as [Hnone _].
  rewrite Hrun. unfold result, trace at 1 2. simpl. done.
Qed.

Lemma X4_witness :
  logging_fails (setup_logging dev_settings) = Some value_error ∧
  result (lifespan dev_settings (mret ()) logging_fails) = Raised value_error ∧
  starts (trace (lifespan dev_settings (mret ()) logging_fails)) = [].
Proof.
  split; [reflexivity|].
  pose proof (X4_failure_before_the_database_starts_nothing
                dev_settings (mret ()) logging_fails value_error
                (or_introl eq_refl)) as (Hres & Hstarts & _).
  split; [exact Hres|exact Hstarts].
Defined.

(** X5. With performance monitoring disabled the monitoring set-up is
    never called, and whether it would raise makes no difference to the
    startup. *)
Theorem X5_monitoring_off_is_never_called
    (settings : Settings) (w w' : world) :
  enable_performance_monitoring settings = false →
  (∀ c, (∀ s, c ≠ init_monitoring s) → w c = w' c) →
  (∀ s, init_monitoring s ∉ calls (trace (lifespan_startup settings w))) ∧
  lifespan_startup settings w = lifespan_startup settings w'.
Proof.
  intros Hflag Hsame.
  assert (w (setup_logging settings) = w' (setup_logging settings)) as H1
    by (by apply Hsame).
  assert (w init_db = w' init_db) as H2 by (by apply Hsame).
  assert (w (init_redis (redis_url settings))
          = w' (init_redis (redis_url settings))) as H3 by (by apply Hsame).
  assert (w init_agent_pool = w' init_agent_pool) as H4 by (by apply Hsame).
  run_eff. rewrite Hflag, H1, H2, H3, H4. split; [|done].
  intros s.
  destruct (w' (setup_logging settings)), (w' init_db),
    (w' (init_redis (redis_url settings))), (w' init_agent_pool); simpl;
    intros Hin; apply list_elem_of_In in Hin; simpl in Hin;
    intuition discriminate.
Qed.

Lemma X5_witness :
  (enable_performance_monitoring dev_settings = false ∧
   ∀ c, (∀ s, c ≠ init_monitoring s) → all_up c = monitoring_fails c) ∧
  lifespan_startup dev_settings all_up
  = lifespan_startup dev_settings monitoring_fails.
Proof.
  assert (∀ c, (∀ s, c ≠ init_monitoring s) → all_up c = monitoring_fails c)
    as Hsame.
  { intros c Hc. destruct c as [|s| | | | | |]; try reflexivity.
    by destruct (Hc s). }
  split; [split; [reflexivity|exact Hsame]|].
  exact (proj2 (X5_monitoring_off_is_never_called
                  dev_settings all_up monitoring_fails eq_refl Hsame)).
Defined.

(** ** Further properties of the configuration *)

(** A settings object that construction returns holds the four required
    values exactly as the source gave them, and the two URLs have passed
    their validators. *)
Lemma required_fields_of_settings (env : gmap string value) (cfg : Settings) :
  Settings_init env = Ok cfg →
  (env !! "secret_key" = Some (VStr (secret_key cfg)) ∧
   env !! "jwt_secret" = Some (VStr (jwt_secret cfg)) ∧
   env !! "database_url" = Some (VStr (database_url cfg)) ∧
   env !! "redis_url" = Some (VStr (redis_url cfg))) ∧
  Py.startswith_any (database_url cfg) ["postgresql://"; "postgres://"] = true ∧
  Py.startswith (redis_url cfg) "redis://" = true.
Proof.
  intros H. invert_settings H. simpl.
  repeat match goal with
         | Hf : field _ _ (Some _) _ _ _ = Ok _ |- _ => clear Hf
         end.
  repeat match goal with
         | Hf : field env ?n None _ _ _ = Ok _ |- _ =>
             unfold field, validate, no_pre, no_post,
               validate_database_url, validate_redis_url in Hf;
             destruct (env !! n) as [[| | |?|]|]; simpl in Hf; try discriminate Hf
         end.
  repeat match goal with
         | Hf : context [negb ?b] |- _ =>
             destruct b eqn:?; simpl in Hf; try discriminate Hf
         end.
  simplify_eq. done.
Qed.

(** X6. The cache is only ever initialised with the configured URL: in
    every world, a call of [init_redis] made by the lifespan manager of a
    constructed settings object carries the [redis_url] of the source
    unchanged, and that URL starts with [redis://]. *)
Theorem X6_init_redis_gets_the_validated_url
    (env : gmap string value) (cfg : Settings) (w : world) (url : string) :
  Settings_init env = Ok cfg →
  init_redis url ∈ calls (trace (lifespan_startup cfg w)) →
  env !! "redis_url" = Some (VStr url) ∧
  Py.startswith url "redis://" = true.
Proof.
  intros H Hcall.
  destruct (required_fields_of_settings env cfg H)
    as ((_ & _ & _ & Henv) & _ & Hredis).
  assert (url = redis_url cfg) as ->; [|done].
  revert Hcall. run_eff.
  destruct (enable_performance_monitoring cfg);
    destruct (w (setup_logging cfg)), (w (init_monitoring cfg)), (w init_db),
      (w (init_redis (redis_url cfg))), (w init_agent_pool); simpl;
    intros Hin; apply list_elem_of_In in Hin; simpl in Hin;
    intuition congruence.
Qed.

Lemma X6_witness :
  (Settings_init minimal_env = Ok dev_settings ∧
   init_redis "redis://cache:6379"
   ∈ calls (trace (lifespan_startup dev_settings all_up))) ∧
  minimal_env !! "redis_url" = Some (VStr "redis://cache:6379") ∧
  Py.startswith "redis://cache:6379" "redis://" = true.
Proof.
  assert (Settings_init minimal_env = Ok dev_settings) as H
    by (vm_compute; reflexivity).
  assert (init_redis "redis://cache:6379"
          ∈ calls (trace (lifespan_startup dev_settings all_up))) as Hcall.
  { apply list_elem_of_In. simpl. tauto. }
  split; [split; [exact H|exact Hcall]|].
  exact (X6_init_redis_gets_the_validated_url
           minimal_env dev_settings all_up "redis://cache:6379" H Hcall).
Defined.

(** X7. Every settings object that construction returns has a
    [database_url] that starts with [postgresql://] or [postgres://] and a
    [redis_url] that starts with [redis://]. *)
Theorem X7_constructed_settings_have_valid_urls
    (env : gmap string value) (cfg : Settings) :
  Settings_init env = Ok cfg →
  (Py.startswith (database_url cfg) "postgresql://" = true ∨
   Py.startswith (database_url cfg) "postgres://" = true) ∧
  Py.startswith (redis_url cfg) "redis://" = true.
Proof.
  intros H.
  destruct (required_fields_of_settings env cfg H) as (_ & Hdb & Hredis).
  split; [|done].
  unfold Py.startswith_any in Hdb. simpl in Hdb.
  rewrite orb_false_r in Hdb. by apply orb_true_iff in Hdb.
Qed.

Lemma X7_witness :
  Settings_init minimal_env = Ok dev_settings ∧
  (Py.startswith (database_url dev_settings) "postgresql://" = true ∨
   Py.startswith (database_url dev_settings) "postgres://" = true) ∧
  Py.startswith (redis_url dev_settings) "redis://" = true.
Proof.
  assert (Settings_init minimal_env = Ok dev_settings) as H
    by (vm_compute; reflexivity).
  split; [exact H|].
  exact (X7_constructed_settings_have_valid_urls minimal_env dev_settings H).
Defined.

(** X8. Construction succeeds only when the source supplies all four
    required fields as strings, and the settings object holds each of them
    unchanged: the validators return the URL they were given. *)
Theorem X8_required_values_are_stored_unchanged
    (env : gmap string value) (cfg : Settings) :
  Settings_init env = Ok cfg →
  env !! "secret_key" = Some (VStr (secret_key cfg)) ∧
  env !! "jwt_secret" = Some (VStr (jwt_secret cfg)) ∧
  env !! "database_url" = Some (VStr (database_url cfg)) ∧
  env !! "redis_url" = Some (VStr (redis_url cfg)).
Proof.
  intros H. by destruct (required_fields_of_settings env cfg H) as [? _].
Qed.

Lemma X8_witness :
  Settings_init minimal_env = Ok dev_settings ∧
  minimal_env !! "secret_key" = Some (VStr (secret_key dev_settings)) ∧
  minimal_env !! "jwt_secret" = Some (VStr (jwt_secret dev_settings)) ∧
  minimal_env !! "database_url" = Some (VStr (database_url dev_settings)) ∧
  minimal_env !! "redis_url" = Some (VStr (redis_url dev_settings)).
Proof.
  assert (Settings_init minimal_env = Ok dev_settings) as H
    by (vm_compute; reflexivity).
  split; [exact H|].
  exact (X8_required_values_are_stored_unchanged minimal_env dev_settings H).
Defined.

Lemma errors_of_ap {A B} (f : validation (A → B)) (x : validation A) :
  errors_of (f <*> x) = errors_of f ++ errors_of x.
Proof. destruct f, x; simpl; by rewrite ?app_nil_r. Qed.

Lemma fails_with_errors_of {A} e (r : validation A) :
  fails_with e r → e ∈ errors_of r.
Proof. by intros (errors & -> & He). Qed.

(** A field reports [Missing] only when it is required and absent. *)
Lemma field_reports_missing {A} (env : gmap string value) (n : string)
    (d : option A) pre coerce post (name : string) :
  (∀ v, (name, Missing) ∉ errors_of (validate n pre coerce post v)) →
  (name, Missing) ∈ errors_of (field env n d pre coerce post) →
  d = None ∧ n = name ∧ env !! n = None.
Proof.
  intros Hvalidate. unfold field.
  destruct (env !! n) as [v|]; [by intros ?%Hvalidate|].
  destruct d; simpl; [by intros ?%elem_of_nil|].
  intros Hin%list_elem_of_singleton. by simplify_eq.
Qed.

Lemma as_str_kind : coercion_keeps_kind as_str.
Proof.
  intros loc [| | |s|items] e; simpl; try (by intros ?%elem_of_nil);
    by intros ->%list_elem_of_singleton.
Qed.

Lemma as_int_kind : coercion_keeps_kind as_int.
Proof.
  intros loc [| | |s|items] e; simpl; try (by intros ?%elem_of_nil);
    try (by intros ->%list_elem_of_singleton).
  destruct (int_of_str s); simpl; [by intros ?%elem_of_nil|].
  by intros ->%list_elem_of_singleton.
Qed.

Lemma as_bool_kind : coercion_keeps_kind as_bool.
Proof.
  intros loc [| | |s|items] e; simpl; try (by intros ?%elem_of_nil);
    try (by intros ->%list_elem_of_singleton).
  destruct (bool_of_str s); simpl; [by intros ?%elem_of_nil|].
  by intros ->%list_elem_of_singleton.
Qed.

Lemma as_str_list_kind : coercion_keeps_kind as_str_list.
Proof.
  intros loc [| | |s|items] e; simpl; try (by intros ?%elem_of_nil);
    try (by intros ->%list_elem_of_singleton).
  destruct (mapM str_item items); simpl; [by intros ?%elem_of_nil|].
  by intros ->%list_elem_of_singleton.
Qed.

Lemma no_post_kind {A} : validator_keeps_kind (@no_post A).
Proof. by intros a e. Qed.

Lemma validate_database_url_kind : validator_keeps_kind validate_database_url.
Proof.
  intros a e. unfold validate_database_url.
  destruct (negb _); intros He; by simplify_eq.
Qed.

Lemma validate_redis_url_kind : validator_keeps_kind validate_redis_url.
Proof.
  intros a e. unfold validate_redis_url.
  destruct (negb _); intros He; by simplify_eq.
Qed.

Lemma validate_never_missing {A} (n name : string) pre
    (coerce : string → value → validation A) post :
  coercion_keeps_kind coerce →
  validator_keeps_kind post →
  ∀ v, (name, Missing) ∉ errors_of (validate n pre coerce post v).
Proof.
  intros Hco Hpost v. unfold validate.
  destruct (coerce n (pre v)) as [a|errors] eqn:Hc.
  - destruct (post a) as [a'|e] eqn:Hp; simpl; [by intros ?%elem_of_nil|].
    intros Hin%list_elem_of_singleton. simplify_eq. by eapply Hpost.
  - simpl. intros Hin. apply (Hco n (pre v) (name, Missing)); [|done].
    by rewrite Hc.
Qed.

Lemma missing_required_fails (env : gmap string value) (name : string) :
  name ∈ required_fields →
  env !! name = None →
  fails_with (name, Missing) (Settings_init env).
Proof.
  intros Hname Henv. unfold required_fields in Hname.
  repeat (apply elem_of_cons in Hname as [->|Hname]);
    [..|by apply elem_of_nil in Hname].
  all: match goal with
       | |- fails_with (?n, _) _ =>
           assert (∀ pre post,
             fails_with (n, Missing) (field env n None pre as_str post)) as H
             by (intros; rewrite field_missing by done;
                 eexists; split; [done|by apply list_elem_of_singleton])
       end.
  all: unfold Settings_init;
    repeat first [ apply ap_fails_r; apply H | apply ap_fails_l ].
Qed.

(** X9. Construction reports a field as missing exactly when it is one of
    the four required fields and the source gives no value for it: a field
    with a default is never reported missing, and all absent required
    fields are reported together. *)
Theorem X9_missing_is_reported_exactly_for_absent_required_fields
    (env : gmap string value) (name : string) :
  (name, Missing) ∈ errors_of (Settings_init env) ↔
  name ∈ required_fields ∧ env !! name = None.
Proof.
  split.
  - unfold Settings_init. rewrite !errors_of_ap, !elem_of_app. intros Hin.
    repeat match type of Hin with
           | _ ∨ _ => destruct Hin as [Hin|Hin]
           end;
      try (by apply elem_of_nil in Hin);
      (apply field_reports_missing in Hin;
        [|apply validate_never_missing;
          eauto using as_str_kind, as_int_kind, as_bool_kind,
            as_str_list_kind, no_post_kind, validate_database_url_kind,
            validate_redis_url_kind]);
      destruct Hin as (Hd & <- & Henv); try discriminate Hd;
      (split; [|done]); unfold required_fields;
      apply list_elem_of_In; simpl; tauto.
  - intros [Hname Henv].
    by apply fails_with_errors_of, missing_required_fails.
Qed.

Lemma field_default {A} (env : gmap string value) (n : string) (d : A)
    pre coerce post :
  env !! n = None → field env n (Some d) pre coerce post = Ok d.
Proof. unfold field. by intros ->. Qed.

Lemma field_given {A} (env : gmap string value) (n : string)
    (d : option A) pre coerce post (v : value) :
  env !! n = Some v →
  field env n d pre coerce post = validate n pre coerce post v.
Proof. unfold field. by intros ->. Qed.

(** X10. A source that gives only the four required fields, with valid
    URLs, yields the settings object with every other field at its declared
    default: environment [development], port 8000, four workers, pools of
    20 and 10, rate limiting on at 100 requests, monitoring off, and the
    two localhost origins. *)
Theorem X10_only_required_fields_give_the_defaults
    (key jwt db cache : string) :
  Py.startswith_any db ["postgresql://"; "postgres://"] = true →
  Py.startswith cache "redis://" = true →
  Settings_init
    (<["secret_key" := VStr key]>
       (<["jwt_secret" := VStr jwt]>
          (<["database_url" := VStr db]>
             (<["redis_url" := VStr cache]> ∅))))
  = Ok {| app_name := "CLOS Orchestrator"; app_version := "1.0.0";
          environment := "development"; secret_key := key; jwt_secret := jwt;
          jwt_expiration_minutes := 30; port := 8000; workers := 4;
          database_url := db;
          database_pool_size := 20; database_max_overflow := 40;
          database_pool_timeout := 30;
          redis_url := cache; redis_pool_size := 10;
          agent_timeout := 300; agent_max_retries := 3;
          agent_retry_delay := 5;
          enable_performance_monitoring := false;
          enable_rate_limiting := true;
          rate_limit_requests := 100; rate_limit_period := 60;
          cors_origins := ["http://localhost:3000"; "http://localhost:8000"];
          cors_allow_credentials := true;
          cors_allow_methods := ["*"]; cors_allow_headers := ["*"] |}.
Proof.
  intros Hdb Hcache. unfold Settings_init.
  rewrite (field_given _ "secret_key" _ _ _ _ (VStr key)) by reflexivity.
  rewrite (field_given _ "jwt_secret" _ _ _ _ (VStr jwt)) by reflexivity.
  rewrite (field_given _ "database_url" _ _ _ _ (VStr db)) by reflexivity.
  rewrite (field_given _ "redis_url" _ _ _ _ (VStr cache)) by reflexivity.
  rewrite !field_default by reflexivity.
  unfold validate, no_pre, no_post, as_str,
    validate_database_url, validate_redis_url.
  by rewrite Hdb, Hcache.
Qed.

Lemma X10_witness :
  (Py.startswith_any "postgres://clos@db/clos" ["postgresql://"; "postgres://"]
   = true ∧
   Py.startswith "redis://cache" "redis://" = true) ∧
  ∃ cfg,
    Settings_init
      (<["secret_key" := VStr "k"]>
         (<["jwt_secret" := VStr "j"]>
            (<["database_url" := VStr "postgres://clos@db/clos"]>
               (<["redis_url" := VStr "redis://cache"]> ∅))))
    = Ok cfg ∧
    environment cfg = "development" ∧ port cfg = 8000%Z.
Proof.
  split; [split; reflexivity|].
  eexists. split.
  - exact (X10_only_required_fields_give_the_defaults
             "k" "j" "postgres://clos@db/clos" "redis://cache"
             eq_refl eq_refl).
  - split; reflexivity.
Defined.

(** X11. Only the two literal prefixes are accepted for the database and
    the single one for the cache: a database URL that names a driver
    ([postgresql+driver://...]) and a cache URL over TLS ([rediss://...])
    make construction fail with the validator's error. *)
Theorem X11_driver_and_tls_urls_are_rejected
    (env : gmap string value) (driver rest : string) :
  env !! "database_url"
    = Some (VStr ("postgresql+" +:+ driver +:+ "://" +:+ rest)) ∨
  env !! "redis_url" = Some (VStr ("rediss://" +:+ rest)) →
  ∃ name msg, fails_with (name, ValueError msg) (Settings_init env).
Proof.
  intros [Henv|Henv].
  - eexists _, _. eapply bad_database_url_fails; [exact Henv|reflexivity].
  - eexists _, _. eapply bad_redis_url_fails; [exact Henv|reflexivity].
Qed.

Lemma X11_witness :
  let env := <["database_url" := VStr "postgresql+asyncpg://clos@db/clos"]>
               minimal_env in
  env !! "database_url"
    = Some (VStr ("postgresql+" +:+ "asyncpg" +:+ "://" +:+ "clos@db/clos")) ∧
  ∃ name msg, fails_with (name, ValueError msg) (Settings_init env).
Proof.
  intros env.
  assert (env !! "database_url"
          = Some (VStr ("postgresql+" +:+ "asyncpg" +:+ "://" +:+ "clos@db/clos")))
    as Henv by reflexivity.
  split; [exact Henv|].
  exact (X11_driver_and_tls_urls_are_rejected env "asyncpg" "clos@db/clos"
           (or_introl Henv)).
Defined.

(** ** Further properties of the application *)


(** X14. The rate-limit middleware is installed exactly when rate limiting
    is enabled, and then with the configured number of requests. *)
Theorem X14_rate_limiter_installed_iff_enabled
    (settings : Settings) (n : Z) :
  RateLimitMiddleware n ∈ user_middleware (create_app settings) ↔
  enable_rate_limiting settings = true ∧ n = rate_limit_requests settings.
Proof.
  rewrite create_app_user_middleware.
  destruct (enable_rate_limiting settings); simpl; split.
  - intros Hin. apply list_elem_of_In in Hin. simpl in Hin.
    destruct Hin as [Hin|Hin]; [by simplify_eq|]. intuition discriminate.
  - intros [_ ->]. apply elem_of_cons. by left.
  - intros Hin. apply list_elem_of_In in Hin. simpl in Hin.
    intuition discriminate.
  - by intros [? _].
Qed.

(** X15. In every environment the application has exactly one
    trusted-host middleware. It accepts every host exactly when the
    environment is [development]; in every other environment, staging and
    testing included, it accepts [*.candlefish.ai] and [localhost] only. *)
Theorem X15_wildcard_host_only_in_development (settings : Settings) :
  trusted_hosts (user_middleware (create_app settings))
  = [if bool_decide (environment settings = "development")
     then ["*"] else ["*.candlefish.ai"; "localhost"]] ∧
  (TrustedHostMiddleware ["*"] ∈ user_middleware (create_app settings) ↔
   environment settings = "development") ∧
  (TrustedHostMiddleware ["*.candlefish.ai"; "localhost"]
   ∈ user_middleware (create_app settings) ↔
   environment settings ≠ "development").
Proof.
  rewrite create_app_user_middleware. unfold is_development.
  split_and!.
  - by destruct (enable_rate_limiting settings).
  - case_bool_decide as Henv;
      destruct (enable_rate_limiting settings); simpl; split; try done.
    all: try (intros _; apply list_elem_of_In; simpl; tauto).
    all: intros Hin; apply list_elem_of_In in Hin; simpl in Hin;
      intuition discriminate.
  - case_bool_decide as Henv;
      destruct (enable_rate_limiting settings); simpl; split; try done.
    all: try (intros _; apply list_elem_of_In; simpl; tauto).
    all: intros Hin; apply list_elem_of_In in Hin; simpl in Hin;
      intuition discriminate.
Qed.

(** X16. In production the three documentation endpoints are off and host
    validation is restricted to [*.candlefish.ai] and [localhost]. *)
Theorem X16_production_is_locked_down (settings : Settings) :
  environment settings = "production" →
  docs_url (create_app settings) = None ∧
  redoc_url (create_app settings) = None ∧
  openapi_url (create_app settings) = None ∧
  TrustedHostMiddleware ["*.candlefish.ai"; "localhost"]
  ∈ user_middleware (create_app settings).
Proof.
  intros Henv.
  assert (is_production settings = true) as Hp
    by (by apply is_production_spec).
  assert (is_development settings = false) as Hd.
  { unfold is_development. rewrite Henv. by apply bool_decide_eq_false. }
  rewrite create_app_user_middleware, Hd.
  unfold create_app. rewrite Hp.
  split_and!; try (by destruct (enable_rate_limiting settings)).
  destruct (enable_rate_limiting settings);
    apply list_elem_of_In; simpl; tauto.
Qed.

Lemma X16_witness :
  let settings := with_environment "production" dev_settings in
  environment settings = "production" ∧
  docs_url (create_app settings) = None ∧
  TrustedHostMiddleware ["*.candlefish.ai"; "localhost"]
  ∈ user_middleware (create_app settings).
Proof.
  intros settings. split; [reflexivity|].
  pose proof (X16_production_is_locked_down settings eq_refl)
    as (Hdocs & _ & _ & Hhost).
  split; [exact Hdocs|exact Hhost].
Defined.

(** X17. In every environment, production included, the handler writes
    the same single error entry to the log, with the exception and the
    path and method of the request, and calls none of the collaborators;
    every response it returns has status 500. *)
Theorem X17_handler_logs_in_every_environment
    (settings settings' : Settings) (request : Request) (exc : exn)
    (w w' : world) :
  trace (global_exception_handler settings request exc w)
  = [Log "error" "Unhandled exception" (Some exc)
       [("path", url_path request); ("method", method request)]] ∧
  trace (global_exception_handler settings' request exc w')
  = trace (global_exception_handler settings request exc w) ∧
  calls (trace (global_exception_handler settings request exc w)) = [] ∧
  ∀ response,
    result (global_exception_handler settings request exc w) = Done response →
    status_code response = 500%Z.
Proof.
  rewrite !handler_logs_and_returns. unfold trace, result. simpl.
  split_and!; [done..|].
  intros response Hr. injection Hr as <-.
  by destruct (is_production settings).
Qed.

(** ** The getters of the settings object *)

Ltac invert_full H :=
  unfold FullSettings_init in H;
  repeat match type of H with
         | _ <*> _ = Ok _ =>
             let g := fresh "g" in
             let a := fresh "a" in
             let Hx := fresh "Hfield" in
             apply ap_Ok_inv in H as (g & a & H & Hx & ->)
         end;
  match type of H with Ok _ = Ok _ => injection H as <- end.

Lemma truthy_spec (o : option string) :
  truthy o = true ↔ ∃ s, o = Some s ∧ s ≠ "".
Proof.
  destruct o as [[|c s]|]; simpl; split; try done.
  - by intros (s & ? & Hs); simplify_eq.
  - intros _. by eexists.
  - by intros (s & ? & ?).
Qed.


(** X19. The AWS configuration never holds an empty credential or
    endpoint: apart from the region, every entry is a non-empty string. *)
Theorem X19_aws_config_has_no_empty_entries
    (self : FullSettings) (key : string) (v : value) :
  key ≠ "region_name" →
  get_aws_config self !! key = Some v →
  ∃ s, v = VStr s ∧ s ≠ "".
Proof.
  intros Hkey. unfold get_aws_config.
  destruct (aws_access_key_id self) as [[|c1 k1]|],
    (aws_secret_access_key self) as [[|c2 k2]|],
    (aws_endpoint_url self) as [[|c3 url]|]; simpl;
    rewrite ?lookup_insert, lookup_singleton;
    repeat case_decide; intros Hv; simplify_eq; by eexists.
Qed.

Lemma X19_witness :
  let self :=
    {| base := dev_settings; debug := false; jwt_algorithm := "HS256";
       host := "0.0.0.0"; reload := false; database_echo := false;
       redis_decode_responses := true; aws_region := "us-east-1";
       aws_account_id := None; aws_access_key_id := Some "AKIA";
       aws_secret_access_key := Some ""; aws_endpoint_url := Some "http://s3";
       s3_bucket_assets := "candlefish-assets";
       s3_bucket_backups := "candlefish-backups";
       anthropic_api_key := None; openai_api_key := None;
       new_relic_license_key := None;
       new_relic_app_name := "CLOS Orchestrator";
       datadog_api_key := None; sentry_dsn := None;
       enable_agent_logging := true |} in
  ("endpoint_url" ≠ "region_name" ∧
   get_aws_config self !! "endpoint_url" = Some (VStr "http://s3")) ∧
  (∃ s, VStr "http://s3" = VStr s ∧ s ≠ "") ∧
  get_aws_config self !! "aws_access_key_id" = None.
Proof.
  intros self.
  assert ("endpoint_url" ≠ "region_name") as Hkey by discriminate.
  assert (get_aws_config self !! "endpoint_url" = Some (VStr "http://s3"))
    as Hv by reflexivity.
  split; [split; [exact Hkey|exact Hv]|].
  split; [|reflexivity].
  exact (X19_aws_config_has_no_empty_entries self "endpoint_url" _ Hkey Hv).
Defined.

(** X20. A source that gives an access key but no secret key (or the
    other way round) yields an AWS configuration without credentials. *)
Theorem X20_half_a_credential_pair_is_dropped
    (env : gmap string value) (self : FullSettings) :
  env !! "aws_access_key_id" = None ∨ env !! "aws_secret_access_key" = None →
  FullSettings_init env = Ok self →
  get_aws_config self !! access_key = None ∧
  get_aws_config self !! secret_access_key = None.
Proof.
  intros Henv H. invert_full H.
  unfold get_aws_config, access_key, secret_access_key. simpl.
  match goal with
  | Hk : field env "aws_access_key_id" _ _ _ _ = Ok ?k,
    Hs : field env "aws_secret_access_key" _ _ _ _ = Ok ?s |- _ =>
      assert (truthy k && truthy s = false) as ->
  end.
  { destruct Henv as [He|He].
    - match goal with
      | Hk : field env "aws_access_key_id" _ _ _ _ = Ok _ |- _ =>
          rewrite field_default in Hk by exact He; by injection Hk as <-
      end.
    - match goal with
      | Hs : field env "aws_secret_access_key" _ _ _ _ = Ok _ |- _ =>
          rewrite field_default in Hs by exact He; injection Hs as <-
      end.
      apply andb_false_r. }
  match goal with
  | |- context [truthy ?o] => destruct (truthy o)
  end; split; reflexivity.
Qed.

Lemma X20_witness :
  let env := <["aws_access_key_id" := VStr "AKIAIOSFODNN7"]> minimal_env in
  ∃ self,
    ((env !! "aws_access_key_id" = None ∨
      env !! "aws_secret_access_key" = None) ∧
     FullSettings_init env = Ok self) ∧
    aws_access_key_id self = Some "AKIAIOSFODNN7" ∧
    get_aws_config self !! access_key = None.
Proof.
  intros env.
  assert (∃ self, FullSettings_init env = Ok self ∧
                  aws_access_key_id self = Some "AKIAIOSFODNN7")
    as (self & H & Hkey) by (eexists; split; vm_compute; reflexivity).
  assert (env !! "aws_access_key_id" = None ∨
          env !! "aws_secret_access_key" = None) as Henv
    by (right; reflexivity).
  exists self. split; [split; [exact Henv|exact H]|].
  split; [exact Hkey|].
  exact (proj1 (X20_half_a_credential_pair_is_dropped env self Henv H)).
Defined.

Lemma int_given_is_stored
    (env : gmap string value) (cfg : Settings) (f : int_field) (z : Z) :
  Settings_init env = Ok cfg →
  env !! int_field_name f = Some (VInt z) →
  int_field_get f cfg = z.
Proof.
  intros H Henv. invert_settings H.
  destruct f; simpl in *;
    match goal with
    | Hf : field env ?n _ _ _ _ = Ok ?a |- ?a = _ =>
        rewrite (field_given _ _ _ _ _ _ _ Henv) in Hf; by injection Hf
    end.
Qed.

(** X21. The pool settings of the database reach the engine configuration
    as the source gave them, with no clamping: an integer given for the
    pool size, the overflow or the pool timeout, whatever its sign, is the
    value under [pool_size], [max_overflow] or [pool_timeout]; pre-ping is
    always on and the recycle time is always 3600. *)
Theorem X21_database_config_passes_pool_settings_through
    (env : gmap string value) (self : FullSettings) (f : int_field) (z : Z) :
  FullSettings_init env = Ok self →
  env !! int_field_name f = Some (VInt z) →
  match f with
  | Database_pool_size =>
      get_database_config self !! "pool_size" = Some (VInt z)
  | Database_max_overflow =>
      get_database_config self !! "max_overflow" = Some (VInt z)
  | Database_pool_timeout =>
      get_database_config self !! "pool_timeout" = Some (VInt z)
  | _ => True
  end ∧
  get_database_config self !! "pool_pre_ping" = Some (VBool true) ∧
  get_database_config self !! "pool_recycle" = Some (VInt 3600) ∧
  dom (get_database_config self)
  = ({["pool_size"; "max_overflow"; "pool_timeout"; "echo"; "pool_pre_ping";
       "pool_recycle"]} : gset string).
Proof.
  intros H Henv.
  assert (∃ cfg, Settings_init env = Ok cfg ∧ base self = cfg)
    as (cfg & Hcfg & Hbase).
  { invert_full H. simpl. eauto. }
  pose proof (int_given_is_stored env cfg f z Hcfg Henv) as Hz.
  unfold get_database_config. rewrite Hbase.
  split_and!.
  - destruct f; try done; simpl in Hz; rewrite Hz; reflexivity.
  - reflexivity.
  - reflexivity.
  - rewrite !dom_insert_L, dom_empty_L. set_solver.
Qed.

Lemma X21_witness :
  let env := <["database_pool_size" := VInt (-5)]> minimal_env in
  ∃ self,
    (FullSettings_init env = Ok self ∧
     env !! int_field_name Database_pool_size = Some (VInt (-5))) ∧
    get_database_config self !! "pool_size" = Some (VInt (-5)).
Proof.
  intros env.
  assert (∃ self, FullSettings_init env = Ok self) as [self H]
    by (eexists; vm_compute; reflexivity).
  exists self. split; [split; [exact H|reflexivity]|].
  exact (proj1 (X21_database_config_passes_pool_settings_through
                  env self Database_pool_size (-5) H eq_refl)).
Defined.

(** ** The default environment *)

(** X22. A source that does not name the environment gives a development
    application: the settings say [development], so host validation accepts
    every host, the documentation endpoints are on, and the exception
    handler answers with the exception's message and type name. *)
Theorem X22_unset_environment_means_development
    (env : gmap string value) (cfg : Settings)
    (request : Request) (exc : exn) (w : world) :
  env !! "environment" = None →
  Settings_init env = Ok cfg →
  environment cfg = "development" ∧
  TrustedHostMiddleware ["*"] ∈ user_middleware (create_app cfg) ∧
  docs_url (create_app cfg) = Some "/docs" ∧
  redoc_url (create_app cfg) = Some "/redoc" ∧
  openapi_url (create_app cfg) = Some "/openapi.json" ∧
  result (global_exception_handler cfg request exc w)
  = Done (verbose_response exc).
Proof.
  intros Henv H.
  assert (environment cfg = "development") as Hdev.
  { invert_settings H. simpl.
    match goal with
    | Hf : field _ "environment" _ _ _ _ = Ok _ |- _ =>
        rewrite field_default in Hf by exact Henv; by injection Hf
    end. }
  assert (is_production cfg = false) as Hp.
  { unfold is_production. rewrite Hdev. by apply bool_decide_eq_false. }
  assert (is_development cfg = true) as Hd.
  { unfold is_development. rewrite Hdev. by apply bool_decide_eq_true. }
  split; [exact Hdev|].
  rewrite handler_logs_and_returns, create_app_user_middleware, Hp, Hd.
  unfold create_app. rewrite Hp.
  split_and!; try (by destruct (enable_rate_limiting cfg)).
  destruct (enable_rate_limiting cfg); apply list_elem_of_In; simpl; tauto.
Qed.

Lemma X22_witness :
  (minimal_env !! "environment" = None ∧
   Settings_init minimal_env = Ok dev_settings) ∧
  TrustedHostMiddleware ["*"] ∈ user_middleware (create_app dev_settings) ∧
  result (global_exception_handler dev_settings get_agents key_error all_up)
  = Done (verbose_response key_error).
Proof.
  assert (Settings_init minimal_env = Ok dev_settings) as H
    by (vm_compute; reflexivity).
  split; [split; [reflexivity|exact H]|].
  pose proof (X22_unset_environment_means_development
                minimal_env dev_settings get_agents key_error all_up
                eq_refl H) as (_ & Hhost & _ & _ & _ & Hres).
  split; [exact Hhost|exact Hres].
Defined.
